(** * writeX-server: the route handlers over a document store

    A shallow embedding of the Express route handlers of the server
    (routes/auth.js, routes/users.js, routes/posts.js, routes/notes.js)
    and of the Note schema (models/Note.js).

    Every handler is a function from the database, the authenticated
    principal and the request to an HTTP response and the database after
    the request.  A collection is a finite map from the document's [_id]
    to the document; an ObjectId is represented by its [toString()] form,
    which is how the handlers compare ids.  A route parameter is the string
    that was sent.  The post and note routes use the [:id] of the document
    in lookups only, which cast it, and there it stands for the stored id it
    is cast to; a [:commentId] is compared as sent.  The follow route uses
    its parameter both cast and as sent, so there the cast is explicit.  A
    string's length is its number of characters.  Timestamps and [populate]
    (which only decorate the response) are left out. *)

From stdpp Require Import gmap strings list fin_maps.

Abbreviation ObjectId := string (only parsing).

(** ** Documents *)

(** Modelled from the spec: models/User.js is not part of the sources; the
    fields are the ones the handlers read and write ([password] holds the
    credential hash). *)
Record User := {
  username : string;
  email : string;
  password : string;
  bio : string;
  avatar : string;
  followers : list ObjectId;
  following : list ObjectId
}.

(** Modelled from the spec: models/Post.js is not part of the sources; a like
    is the sub-document [{ user }] the like route pushes and a comment carries
    the [_id] the delete route looks for. *)
Record Like := { like_user : ObjectId }.

Record Comment := {
  comment_id : ObjectId;
  comment_user : ObjectId;
  comment_content : string
}.

Record Post := {
  author : ObjectId;
  content : string;
  likes : list Like;
  comments : list Comment
}.

(** models/Note.js *)
Record Note := {
  note_user : ObjectId;
  title : string;
  note_content : string;
  tags : list string;
  isPinned : bool
}.

Definition set_followers (u : User) (l : list ObjectId) : User :=
  {| username := username u; email := email u; password := password u;
     bio := bio u; avatar := avatar u; followers := l;
     following := following u |}.

Definition set_following (u : User) (l : list ObjectId) : User :=
  {| username := username u; email := email u; password := password u;
     bio := bio u; avatar := avatar u; followers := followers u;
     following := l |}.

Definition set_content (p : Post) (c : string) : Post :=
  {| author := author p; content := c; likes := likes p;
     comments := comments p |}.

Definition set_likes (p : Post) (l : list Like) : Post :=
  {| author := author p; content := content p; likes := l;
     comments := comments p |}.

Definition set_comments (p : Post) (l : list Comment) : Post :=
  {| author := author p; content := content p; likes := likes p;
     comments := l |}.

(** The three collections of the database. *)
Record Db := {
  users : gmap string User;
  posts : gmap string Post;
  notes : gmap string Note
}.

Definition set_users (db : Db) (m : gmap string User) : Db :=
  {| users := m; posts := posts db; notes := notes db |}.

Definition set_posts (db : Db) (m : gmap string Post) : Db :=
  {| users := users db; posts := m; notes := notes db |}.

Definition set_notes (db : Db) (m : gmap string Note) : Db :=
  {| users := users db; posts := posts db; notes := m |}.

Definition emptyDb : Db := {| users := ∅; posts := ∅; notes := ∅ |}.

(** ** HTTP responses *)

(** An entry of [errors.array()]. *)
Record ValidationError := { path : string; msg : string }.

(** The user object of the register and login responses. *)
Record UserJson := {
  uj_id : ObjectId;
  uj_username : string;
  uj_email : string;
  uj_bio : string;
  uj_avatar : string
}.

Inductive Json :=
  | JMessage (message : string)
  | JErrors (errors : list ValidationError)
  | JPost (id : ObjectId) (post : Post)
  | JNote (id : ObjectId) (note : Note)
  | JUser (id : ObjectId) (user : option User)
  | JAuth (token : string) (user : UserJson)
  | JFollow (message : string) (isFollowing : bool) (followersCount : nat).

Record Response := { status : nat; json : Json }.

Definition respond (code : nat) (j : Json) : Response :=
  {| status := code; json := j |}.

(** The [catch] branch every handler ends with. *)
Definition serverError : Response := respond 500 (JMessage "Server error").

(** ** JavaScript array operations used by the handlers *)

Module Js.

(** [arr.includes(x)] *)
Definition includes (x : string) (arr : list string) : bool :=
  bool_decide (x ∈ arr).

(** [arr.findIndex(pred)], [None] standing for [-1] *)
Definition findIndex {A} (P : A → Prop) `{∀ x, Decision (P x)}
    (arr : list A) : option nat :=
  fst <$> list_find P arr.

(** [arr.splice(i, 1)] *)
Definition splice1 {A} (i : nat) (arr : list A) : list A := delete i arr.

(** [arr.push(x)] *)
Definition push {A} (x : A) (arr : list A) : list A := arr ++ [x].

(** Truthiness of an optional string field: [undefined] and [""] are
    falsy. *)
Definition truthy (v : option string) : bool :=
  match v with
  | Some s => negb (String.eqb s "")
  | None => false
  end.

End Js.

(** ** express-validator chains

    A body field is [None] when it is absent ([undefined]); the validators
    run on the field converted to a string, [undefined] becoming [""]. *)

Module Validator.

Definition toString (v : option string) : string := default "" v.

(** [.notEmpty()]: the string has length 1 or more; whitespace counts. *)
Definition notEmpty (v : option string) : bool :=
  negb (Nat.eqb (String.length (toString v)) 0).

(** [.isLength({ min })] *)
Definition isLength (min : nat) (v : option string) : bool :=
  Nat.leb min (String.length (toString v)).

(** [.exists()]: the field is not [undefined]. *)
Definition exists_ (v : option string) : bool :=
  match v with Some _ => true | None => false end.

(** One chain [body(path).<validator>().withMessage(msg)]: the error it
    contributes, if any. *)
Definition check (ok : bool) (p m : string) : list ValidationError :=
  if ok then [] else [ {| path := p; msg := m |} ].

(** [validationResult(req).isEmpty()] *)
Definition isEmpty (errors : list ValidationError) : bool :=
  match errors with [] => true | _ => false end.

End Validator.

(** ** Request bodies *)

Record RegisterBody := {
  reg_username : option string;
  reg_email : option string;
  reg_password : option string
}.

Record LoginBody := {
  login_email : option string;
  login_password : option string
}.

Record ProfileBody := {
  prof_bio : option string;
  prof_avatar : option string;
  prof_username : option string
}.

Record ContentBody := { body_content : option string }.

Record NoteBody := {
  nb_title : option string;
  nb_content : option string;
  nb_tags : option (list string);
  nb_isPinned : option bool
}.

(** [Model.findOne(filter)] on the users collection. *)
Definition findOne (P : User → Prop) `{∀ u, Decision (P u)}
    (m : gmap string User) : option (string * User) :=
  head (filter (λ kv, P kv.2) (map_to_list m)).

(** Schema validation that [note.save()] runs (models/Note.js): [title] and
    [content] are required and bounded, every tag is bounded. *)
Definition noteValid (n : Note) : bool :=
  negb (String.eqb (title n) "")
  && Nat.leb (String.length (title n)) 200
  && negb (String.eqb (note_content n) "")
  && Nat.leb (String.length (note_content n)) 5000
  && forallb (λ t, Nat.leb (String.length t) 50) (tags n).

(** The connectivity gate of the like and comment routes:
    [currentUser.following.includes(post.author)
     || postAuthor.followers.includes(req.user._id)
     || post.author === req.user._id]. *)
Definition isFollowingOrFollower (currentUser postAuthor : User)
    (postAuthorId uid : ObjectId) : bool :=
  Js.includes postAuthorId (following currentUser)
  || Js.includes uid (followers postAuthor)
  || String.eqb postAuthorId uid.

(** The like toggle:
    [likeIndex = post.likes.findIndex(like => like.user === uid)], then
    [splice(likeIndex, 1)] or [push({ user: uid })]. *)
Definition likeIndex (uid : ObjectId) (ls : list Like) : option nat :=
  Js.findIndex (λ like, like_user like = uid) ls.

Definition toggleLike (uid : ObjectId) (ls : list Like) : list Like :=
  match likeIndex uid ls with
  | Some i => Js.splice1 i ls
  | None => Js.push {| like_user := uid |} ls
  end.

(** [commentIndex = post.comments.findIndex(c => c._id === commentId)] *)
Definition commentIndex (commentId : string) (cs : list Comment) : option nat :=
  Js.findIndex (λ c, comment_id c = commentId) cs.

(** ** The route handlers *)

Section Routes.

(** External collaborators: [mongoose.Types.ObjectId.isValid], the cast of a
    string to an ObjectId (given as the [toString()] of the result, so
    upper-case hex digits come out in lower case), validator.js' [isEmail],
    and, from the User model and the JWT library, password hashing,
    [user.comparePassword] and [jwt.sign]. *)
Variable isValidObjectId : string → bool.
Variable castObjectId : string → ObjectId.
Variable isEmail : string → bool.
Variable hashPassword : string → string.
Variable comparePassword : string → string → bool.
Variable generateToken : ObjectId → string.

(** [body("email").isEmail()]: an absent field is validated as [""], which
    validator.js rejects. *)
Definition isEmailField (v : option string) : bool :=
  match v with Some s => isEmail s | None => false end.

Definition userJson (id : ObjectId) (u : User) : UserJson :=
  {| uj_id := id; uj_username := username u; uj_email := email u;
     uj_bio := bio u; uj_avatar := avatar u |}.

(** *** routes/auth.js *)

Definition registerErrors (b : RegisterBody) : list ValidationError :=
  Validator.check (Validator.isLength 3 (reg_username b)) "username"
    "Username must be at least 3 characters"
  ++ Validator.check (isEmailField (reg_email b)) "email"
    "Please enter a valid email"
  ++ Validator.check (Validator.isLength 6 (reg_password b)) "password"
    "Password must be at least 6 characters".

(** POST /api/auth/register; [newId] is the [_id] the driver gives the new
    document, and inserting an [_id] that exists is a duplicate-key error. *)
Definition auth_register (db : Db) (newId : ObjectId) (b : RegisterBody)
    : Response * Db :=
  let errors := registerErrors b in
  if negb (Validator.isEmpty errors) then (respond 400 (JErrors errors), db)
  else
    let uname := Validator.toString (reg_username b) in
    let mail := Validator.toString (reg_email b) in
    let pass := Validator.toString (reg_password b) in
    match findOne (λ u, email u = mail ∨ username u = uname) (users db) with
    | Some existingUser =>
        (respond 400 (JMessage "User already exists"), db)
    | None =>
        let user := {| username := uname; email := mail;
                       password := hashPassword pass; bio := "";
                       avatar := ""; followers := []; following := [] |} in
        match users db !! newId with
        | Some _ => (serverError, db)
        | None =>
            (respond 201 (JAuth (generateToken newId) (userJson newId user)),
             set_users db (<[newId := user]> (users db)))
        end
    end.

Definition loginErrors (b : LoginBody) : list ValidationError :=
  Validator.check (isEmailField (login_email b)) "email"
    "Please enter a valid email"
  ++ Validator.check (Validator.exists_ (login_password b)) "password"
    "Password is required".

(** POST /api/auth/login *)
Definition auth_login (db : Db) (b : LoginBody) : Response :=
  let errors := loginErrors b in
  if negb (Validator.isEmpty errors) then respond 400 (JErrors errors)
  else
    let mail := Validator.toString (login_email b) in
    let pass := Validator.toString (login_password b) in
    match findOne (λ u, email u = mail) (users db) with
    | None => respond 400 (JMessage "Invalid credentials")
    | Some (id, user) =>
        let isMatch := comparePassword pass (password user) in
        if negb isMatch then respond 400 (JMessage "Invalid credentials")
        else respond 200 (JAuth (generateToken id) (userJson id user))
    end.

(** *** routes/users.js *)

(** POST /api/users/:id/follow; [reqUser] is [req.user] as the auth
    middleware left it.  [findById(id)] and [push(id)] cast the parameter,
    whereas the self check, [includes(id)] and the [filter] compare the
    parameter as it was sent with the stored ids.  Each [save()] writes the
    path its document modified: [following] of the actor's document, then
    [followers] of the target's, which is the same stored document when the
    parameter casts to the actor's own id. *)
Definition users_follow (db : Db) (reqUser : option ObjectId) (id : string)
    : Response * Db :=
  if negb (negb (String.eqb id "") && isValidObjectId id)
  then (respond 400 (JMessage "Invalid user ID"), db)
  else
    match reqUser with
    | None => (serverError, db)
    | Some uid =>
        match users db !! castObjectId id with
        | None => (respond 404 (JMessage "User not found"), db)
        | Some userToFollow =>
            if String.eqb id uid
            then (respond 400 (JMessage "You cannot follow yourself"), db)
            else
              match users db !! uid with
              | None => (serverError, db)
              | Some currentUser =>
                  let isFollowing := Js.includes id (following currentUser) in
                  let following' :=
                    if isFollowing
                    then filter (λ userId, userId ≠ id)
                           (following currentUser)
                    else Js.push (castObjectId id) (following currentUser) in
                  let followers' :=
                    if isFollowing
                    then filter (λ userId, userId ≠ uid)
                           (followers userToFollow)
                    else Js.push uid (followers userToFollow) in
                  (respond 200
                     (JFollow
                        (if isFollowing then "Unfollowed successfully"
                         else "Followed successfully")
                        (negb isFollowing)
                        (length followers')),
                   set_users db
                     (alter (λ u, set_followers u followers')
                        (castObjectId id)
                        (alter (λ u, set_following u following') uid
                           (users db))))
              end
        end
    end.

Definition updateFields (b : ProfileBody) (u : User) : User :=
  {| username := if Js.truthy (prof_username b)
                 then Validator.toString (prof_username b) else username u;
     email := email u; password := password u;
     bio := if Js.truthy (prof_bio b)
            then Validator.toString (prof_bio b) else bio u;
     avatar := if Js.truthy (prof_avatar b)
               then Validator.toString (prof_avatar b) else avatar u;
     followers := followers u; following := following u |}.

(** PUT /api/users/profile *)
Definition users_profile (db : Db) (reqUser : option ObjectId)
    (b : ProfileBody) : Response * Db :=
  if negb (Js.truthy (prof_bio b)) && negb (Js.truthy (prof_avatar b))
     && negb (Js.truthy (prof_username b))
  then (respond 400 (JMessage "No fields to update"), db)
  else
    match reqUser with
    | None => (serverError, db)
    | Some uid =>
        let taken :=
          if Js.truthy (prof_username b)
          then match findOne
                       (λ u, username u = Validator.toString (prof_username b))
                       (users db) with
               | Some (eid, _) => negb (String.eqb eid uid)
               | None => false
               end
          else false in
        if taken then (respond 400 (JMessage "Username already taken"), db)
        else
          let users' := alter (updateFields b) uid (users db) in
          (respond 200 (JUser uid (users' !! uid)), set_users db users')
    end.

(** *** routes/posts.js *)

Definition contentErrors (m : string) (b : ContentBody)
    : list ValidationError :=
  Validator.check (Validator.notEmpty (body_content b)) "content" m.

(** POST /api/posts *)
Definition posts_create (db : Db) (reqUser : option ObjectId)
    (newId : ObjectId) (b : ContentBody) : Response * Db :=
  let errors := contentErrors "Content is required" b in
  if negb (Validator.isEmpty errors) then (respond 400 (JErrors errors), db)
  else
    match reqUser with
    | None => (respond 401 (JMessage "User not authenticated"), db)
    | Some uid =>
        let post := {| author := uid;
                       content := Validator.toString (body_content b);
                       likes := []; comments := [] |} in
        match posts db !! newId with
        | Some _ => (serverError, db)
        | None =>
            (respond 201 (JPost newId post),
             set_posts db (<[newId := post]> (posts db)))
        end
    end.

(** The ownership test of PUT and DELETE:
    [!req.user?._id || post.author !== req.user._id] *)
Definition notOwner (reqUser : option ObjectId) (post : Post) : bool :=
  match reqUser with
  | None => true
  | Some uid => negb (String.eqb (author post) uid)
  end.

(** PUT /api/posts/:id *)
Definition posts_update (db : Db) (reqUser : option ObjectId) (id : string)
    (b : ContentBody) : Response * Db :=
  let errors := contentErrors "Content is required" b in
  if negb (Validator.isEmpty errors) then (respond 400 (JErrors errors), db)
  else if negb (isValidObjectId id)
  then (respond 400 (JMessage "Invalid post ID"), db)
  else
    match posts db !! id with
    | None => (respond 404 (JMessage "Post not found"), db)
    | Some post =>
        if notOwner reqUser post
        then (respond 403 (JMessage "Not authorized"), db)
        else
          let post' :=
            set_content post (Validator.toString (body_content b)) in
          (respond 200 (JPost id post'),
           set_posts db (<[id := post']> (posts db)))
    end.

(** DELETE /api/posts/:id *)
Definition posts_delete (db : Db) (reqUser : option ObjectId) (id : string)
    : Response * Db :=
  if negb (isValidObjectId id)
  then (respond 400 (JMessage "Invalid post ID"), db)
  else
    match posts db !! id with
    | None => (respond 404 (JMessage "Post not found"), db)
    | Some post =>
        if notOwner reqUser post
        then (respond 403 (JMessage "Not authorized"), db)
        else (respond 200 (JMessage "Post deleted successfully"),
              set_posts db (delete id (posts db)))
    end.

(** The part the like and comment routes share: id and principal checks,
    the three lookups and the connectivity gate.  [inl] is the early
    response, [inr] the principal's id and the post. *)
Definition interactionGate (db : Db) (reqUser : option ObjectId)
    (id : string) (forbidden : string) : Response + (ObjectId * Post) :=
  if negb (isValidObjectId id)
  then inl (respond 400 (JMessage "Invalid post ID"))
  else
    match reqUser with
    | None => inl (respond 401 (JMessage "User not authenticated"))
    | Some uid =>
        match posts db !! id with
        | None => inl (respond 404 (JMessage "Post not found"))
        | Some post =>
            match users db !! uid with
            | None => inl (respond 404 (JMessage "User not found"))
            | Some currentUser =>
                match users db !! author post with
                | None =>
                    inl (respond 404 (JMessage "Post author not found"))
                | Some postAuthor =>
                    if negb (isFollowingOrFollower currentUser postAuthor
                               (author post) uid)
                    then inl (respond 403 (JMessage forbidden))
                    else inr (uid, post)
                end
            end
        end
    end.

Definition likeForbidden : string :=
  "You must follow this user or be their follower to like their posts".

Definition commentForbidden : string :=
  "You must follow this user or be their follower to comment on their posts".

(** POST /api/posts/:id/like *)
Definition posts_like (db : Db) (reqUser : option ObjectId) (id : string)
    : Response * Db :=
  match interactionGate db reqUser id likeForbidden with
  | inl r => (r, db)
  | inr (uid, post) =>
      let post' := set_likes post (toggleLike uid (likes post)) in
      (respond 200 (JPost id post'),
       set_posts db (<[id := post']> (posts db)))
  end.

(** POST /api/posts/:id/comment; [newId] is the [_id] of the pushed
    sub-document. *)
Definition posts_comment (db : Db) (reqUser : option ObjectId)
    (newId : ObjectId) (id : string) (b : ContentBody) : Response * Db :=
  let errors := contentErrors "Comment content is required" b in
  if negb (Validator.isEmpty errors) then (respond 400 (JErrors errors), db)
  else
    match interactionGate db reqUser id commentForbidden with
    | inl r => (r, db)
    | inr (uid, post) =>
        let newComment :=
          {| comment_id := newId; comment_user := uid;
             comment_content := Validator.toString (body_content b) |} in
        let post' :=
          set_comments post (Js.push newComment (comments post)) in
        (respond 200 (JPost id post'),
         set_posts db (<[id := post']> (posts db)))
    end.

(** DELETE /api/posts/:postId/comments/:commentId *)
Definition posts_deleteComment (db : Db) (reqUser : option ObjectId)
    (postId commentId : string) : Response * Db :=
  if negb (isValidObjectId postId) || negb (isValidObjectId commentId)
  then (respond 400 (JMessage "Invalid ID format"), db)
  else
    match reqUser with
    | None => (respond 401 (JMessage "User not authenticated"), db)
    | Some uid =>
        match posts db !! postId with
        | None => (respond 404 (JMessage "Post not found"), db)
        | Some post =>
            match commentIndex commentId (comments post) with
            | None => (respond 404 (JMessage "Comment not found"), db)
            | Some i =>
                match comments post !! i with
                | None => (serverError, db)
                | Some c =>
                    if negb (String.eqb (comment_user c) uid)
                    then (respond 403
                            (JMessage "Not authorized to delete this comment"),
                          db)
                    else
                      let post' :=
                        set_comments post (Js.splice1 i (comments post)) in
                      (respond 200 (JMessage "Comment deleted"),
                       set_posts db (<[postId := post']> (posts db)))
                end
            end
        end
    end.

(** *** routes/notes.js *)

Definition noteErrors (b : NoteBody) : list ValidationError :=
  Validator.check (Validator.notEmpty (nb_title b)) "title"
    "Title is required"
  ++ Validator.check (Validator.notEmpty (nb_content b)) "content"
    "Content is required".

(** POST /api/notes; [tags || []] and [isPinned || false]. *)
Definition notes_create (db : Db) (reqUser : option ObjectId)
    (newId : ObjectId) (b : NoteBody) : Response * Db :=
  let errors := noteErrors b in
  if negb (Validator.isEmpty errors) then (respond 400 (JErrors errors), db)
  else
    match reqUser with
    | None => (serverError, db)
    | Some uid =>
        let note := {| note_user := uid;
                       title := Validator.toString (nb_title b);
                       note_content := Validator.toString (nb_content b);
                       tags := default [] (nb_tags b);
                       isPinned := default false (nb_isPinned b) |} in
        if negb (noteValid note) then (serverError, db)
        else
          match notes db !! newId with
          | Some _ => (serverError, db)
          | None =>
              (respond 201 (JNote newId note),
               set_notes db (<[newId := note]> (notes db)))
          end
    end.

(** The field assignment of PUT /api/notes/:id:
    [note.tags = tags || []] and
    [note.isPinned = isPinned !== undefined ? isPinned : note.isPinned]. *)
Definition assignNote (note : Note) (b : NoteBody) : Note :=
  {| note_user := note_user note;
     title := Validator.toString (nb_title b);
     note_content := Validator.toString (nb_content b);
     tags := match nb_tags b with Some ts => ts | None => [] end;
     isPinned := match nb_isPinned b with
                 | Some p => p
                 | None => isPinned note
                 end |}.

(** PUT /api/notes/:id; [findById] rejects an id it cannot cast, which the
    handler's [catch] turns into a 500. *)
Definition notes_update (db : Db) (reqUser : option ObjectId) (id : string)
    (b : NoteBody) : Response * Db :=
  let errors := noteErrors b in
  if negb (Validator.isEmpty errors) then (respond 400 (JErrors errors), db)
  else if negb (isValidObjectId id) then (serverError, db)
  else
    match notes db !! id with
    | None => (respond 404 (JMessage "Note not found"), db)
    | Some note =>
        match reqUser with
        | None => (serverError, db)
        | Some uid =>
            if negb (String.eqb (note_user note) uid)
            then (respond 403 (JMessage "Not authorized"), db)
            else
              let note' := assignNote note b in
              if negb (noteValid note') then (serverError, db)
              else (respond 200 (JNote id note'),
                    set_notes db (<[id := note']> (notes db)))
        end
    end.

(** DELETE /api/notes/:id *)
Definition notes_delete (db : Db) (reqUser : option ObjectId) (id : string)
    : Response * Db :=
  if negb (isValidObjectId id) then (serverError, db)
  else
    match notes db !! id with
    | None => (respond 404 (JMessage "Note not found"), db)
    | Some note =>
        match reqUser with
        | None => (serverError, db)
        | Some uid =>
            if negb (String.eqb (note_user note) uid)
            then (respond 403 (JMessage "Not authorized"), db)
            else (respond 200 (JMessage "Note deleted successfully"),
                  set_notes db (delete id (notes db)))
        end
    end.

(** *** The server as a transition system

    A request names the route, the principal the auth middleware resolved
    and the route's parameters; [handle] dispatches like server.js. *)

Inductive Request :=
  | PostAuthRegister (newId : ObjectId) (b : RegisterBody)
  | PostAuthLogin (b : LoginBody)
  | PostUsersFollow (reqUser : option ObjectId) (id : string)
  | PutUsersProfile (reqUser : option ObjectId) (b : ProfileBody)
  | PostPosts (reqUser : option ObjectId) (newId : ObjectId)
      (b : ContentBody)
  | PutPosts (reqUser : option ObjectId) (id : string) (b : ContentBody)
  | DeletePosts (reqUser : option ObjectId) (id : string)
  | PostPostsLike (reqUser : option ObjectId) (id : string)
  | PostPostsComment (reqUser : option ObjectId) (newId : ObjectId)
      (id : string) (b : ContentBody)
  | DeletePostsComment (reqUser : option ObjectId)
      (postId commentId : string)
  | PostNotes (reqUser : option ObjectId) (newId : ObjectId) (b : NoteBody)
  | PutNotes (reqUser : option ObjectId) (id : string) (b : NoteBody)
  | DeleteNotes (reqUser : option ObjectId) (id : string).

Definition handle (db : Db) (r : Request) : Response * Db :=
  match r with
  | PostAuthRegister newId b => auth_register db newId b
  | PostAuthLogin b => (auth_login db b, db)
  | PostUsersFollow u id => users_follow db u id
  | PutUsersProfile u b => users_profile db u b
  | PostPosts u newId b => posts_create db u newId b
  | PutPosts u id b => posts_update db u id b
  | DeletePosts u id => posts_delete db u id
  | PostPostsLike u id => posts_like db u id
  | PostPostsComment u newId id b => posts_comment db u newId id b
  | DeletePostsComment u pid cid => posts_deleteComment db u pid cid
  | PostNotes u newId b => notes_create db u newId b
  | PutNotes u id b => notes_update db u id b
  | DeleteNotes u id => notes_delete db u id
  end.

(** The database after a history of requests, oldest first. *)
Definition exec (history : list Request) (db : Db) : Db :=
  foldl (λ d r, (handle d r).2) db history.

End Routes.

(** ** Predicates of the data model *)

(** The connectivity query of the relationship graph as the like and comment
    routes compute it, on the stored records of [a] (the actor) and [b]. *)
Definition isConnected (db : Db) (a b : ObjectId) : bool :=
  match users db !! a, users db !! b with
  | Some ua, Some ub => isFollowingOrFollower ua ub b a
  | _, _ => false
  end.

(** The follow edge [a → b] as the data model records it, on both sides. *)
Definition follows (db : Db) (a b : ObjectId) : bool :=
  match users db !! a, users db !! b with
  | Some ua, Some ub =>
      Js.includes b (following ua) && Js.includes a (followers ub)
  | _, _ => false
  end.

(** Spec wording of the connectivity predicate: "true iff A follows B, or B
    follows A, or A == B". *)
Definition spec_isConnected (db : Db) (a b : ObjectId) : bool :=
  follows db a b || follows db b a || String.eqb a b.

(** A post's likes hold each user at most once. *)
Definition likesUnique (p : Post) : Prop := NoDup (like_user <$> likes p).

(** Both sides of every follow edge agree. *)
Definition edgeSymmetric (m : gmap string User) : Prop :=
  ∀ a b ua ub, m !! a = Some ua → m !! b = Some ub →
    b ∈ following ua ↔ a ∈ followers ub.

(** Follow edges only mention users that exist. *)
Definition edgesClosed (m : gmap string User) : Prop :=
  ∀ a ua x, m !! a = Some ua →
    x ∈ following ua ∨ x ∈ followers ua → is_Some (m !! x).

(** The stored ids of the users followed are ids as the cast gives them. *)
Definition edgesCast (cast : string → ObjectId) (m : gmap string User)
    : Prop :=
  ∀ a ua x, m !! a = Some ua → x ∈ following ua → cast x = x.

Record dbInvariant (db : Db) : Prop := {
  inv_likes : ∀ id p, posts db !! id = Some p → likesUnique p
}.

Record graphInvariant (cast : string → ObjectId) (m : gmap string User)
    : Prop := {
  inv_symmetric : edgeSymmetric m;
  inv_closed : edgesClosed m;
  inv_cast : edgesCast cast m
}.

(** Spec wording of the post content check: content that "is empty/whitespace
    after trim". *)
Fixpoint trimStart (s : string) : string :=
  match s with
  | String a s' => if Ascii.is_space a then trimStart s' else s
  | EmptyString => EmptyString
  end.

Definition trim (s : string) : string :=
  String.rev (trimStart (String.rev (trimStart s))).

Definition spec_emptyContent (v : option string) : bool :=
  String.eqb (trim (Validator.toString v)) "".

(** The response of a failed content validator. *)
Definition emptyContent (m : string) : Response :=
  respond 400 (JErrors [ {| path := "content"; msg := m |} ]).

(** ** Further predicates of the data model *)

(** Two distinct users share neither username nor email. *)
Definition identitiesUnique (m : gmap string User) : Prop :=
  ∀ a b ua ub, m !! a = Some ua → m !! b = Some ub →
    username ua = username ub ∨ email ua = email ub → a = b.

(** Every stored note passes the schema validation of models/Note.js. *)
Definition notesValid (m : gmap string Note) : Prop :=
  ∀ id n, m !! id = Some n → noteValid n = true.

Record storeInvariant (db : Db) : Prop := {
  inv_identities : identitiesUnique (users db);
  inv_notes : notesValid (notes db)
}.

(** ** Sample collaborators and data

    Concrete stand-ins for the external collaborators, used to run the
    handlers on examples. *)

Module Sample.

Definition isHexDigit (a : Ascii.ascii) : bool :=
  let n := Ascii.nat_of_ascii a in
  (Nat.leb 48 n && Nat.leb n 57) || (Nat.leb 97 n && Nat.leb n 102)
  || (Nat.leb 65 n && Nat.leb n 70).

(** 24 hexadecimal characters. *)
Definition isValidObjectId (s : string) : bool :=
  Nat.eqb (String.length s) 24
  && forallb isHexDigit (String.list_ascii_of_string s).

Definition lowerHex (a : Ascii.ascii) : Ascii.ascii :=
  let n := Ascii.nat_of_ascii a in
  if Nat.leb 65 n && Nat.leb n 70 then Ascii.ascii_of_nat (n + 32) else a.

(** Hex digits in lower case, as [ObjectId.toString()] prints them. *)
Fixpoint castObjectId (s : string) : string :=
  match s with
  | String a s' => String (lowerHex a) (castObjectId s')
  | EmptyString => EmptyString
  end.

Fixpoint hasAt (s : string) : bool :=
  match s with
  | String a s' => Ascii.eqb a (Ascii.ascii_of_nat 64) || hasAt s'
  | EmptyString => false
  end.

(** Contains an at sign. *)
Definition isEmail (s : string) : bool := hasAt s.

Definition hashPassword (s : string) : string := String.append "h$" s.

Definition comparePassword (candidate hash : string) : bool :=
  String.eqb (hashPassword candidate) hash.

Definition generateToken (id : string) : string := String.append "jwt." id.

Definition ann : string := "64b000000000000000000a01".
Definition bob : string := "64b000000000000000000b02".
Definition post1 : string := "64c000000000000000000001".
Definition note1 : string := "64d000000000000000000001".
Definition comment1 : string := "64e000000000000000000001".

Definition registerBody (n e p : string) : RegisterBody :=
  {| reg_username := Some n; reg_email := Some e; reg_password := Some p |}.

Definition contentBody (c : string) : ContentBody :=
  {| body_content := Some c |}.

(** Ann and Bob register, Bob publishes a post. *)
Definition setup : list Request :=
  [ PostAuthRegister ann (registerBody "ann" "ann@example.com" "secret1");
    PostAuthRegister bob (registerBody "bob" "bob@example.com" "secret2");
    PostPosts (Some bob) post1 (contentBody "hello") ].

Definition run (history : list Request) : Db :=
  exec isValidObjectId castObjectId isEmail hashPassword comparePassword
    generateToken history emptyDb.

Definition like (db : Db) (u : ObjectId) (id : string) : Response * Db :=
  posts_like isValidObjectId db (Some u) id.

Definition comment (db : Db) (u : ObjectId) (id c : string)
    : Response * Db :=
  posts_comment isValidObjectId db (Some u) comment1 id (contentBody c).

Definition registered : Db := run setup.

(** The post's author Bob follows Ann; Ann follows nobody. *)
Definition bobFollowsAnnHistory : list Request :=
  setup ++ [ PostUsersFollow (Some bob) ann ].

Definition bobFollowsAnn : Db := run bobFollowsAnnHistory.

(** Ann follows Bob and comments on Bob's post. *)
Definition annCommentedHistory : list Request :=
  setup ++ [ PostUsersFollow (Some ann) bob;
             PostPostsComment (Some ann) comment1 post1
               (contentBody "nice") ].

Definition annCommented : Db := run annCommentedHistory.

Definition annsComment : Comment :=
  {| comment_id := comment1; comment_user := ann;
     comment_content := "nice" |}.

Definition longTitle : string :=
  String.string_of_list_ascii (replicate 201 (Ascii.ascii_of_nat 97)).

Definition annsNote : Note :=
  {| note_user := ann; title := "list"; note_content := "milk";
     tags := ["todo"]; isPinned := false |}.

(** Ann owns one unpinned note tagged "todo". *)
Definition annNote : Db :=
  run (setup ++ [ PostNotes (Some ann) note1
                    {| nb_title := Some "list"; nb_content := Some "milk";
                       nb_tags := Some ["todo"]; nb_isPinned := None |} ]).

Definition pinWithLongTitle : NoteBody :=
  {| nb_title := Some longTitle; nb_content := Some "milk";
     nb_tags := None; nb_isPinned := Some true |}.

Definition pinOnly : NoteBody :=
  {| nb_title := Some "list"; nb_content := Some "eggs";
     nb_tags := None; nb_isPinned := Some true |}.

Definition post2 : string := "64c000000000000000000002".

Definition blank : string := "   ".

Definition wrongPassword : LoginBody :=
  {| login_email := Some "ann@example.com";
     login_password := Some "guess" |}.

Definition user (n e p : string) (frs fng : list ObjectId) : User :=
  {| username := n; email := e; password := hashPassword p; bio := "";
     avatar := ""; followers := frs; following := fng |}.

Definition annUser (frs fng : list ObjectId) : User :=
  user "ann" "ann@example.com" "secret1" frs fng.

Definition bobUser (frs fng : list ObjectId) : User :=
  user "bob" "bob@example.com" "secret2" frs fng.

Definition bobsPost (ls : list Like) (cs : list Comment) : Post :=
  {| author := bob; content := "hello"; likes := ls; comments := cs |}.

Definition cara : string := "64b000000000000000000c03".

(** The ids of Ann and Bob with their hex digits in upper case. *)
Definition annUpper : string := "64B000000000000000000A01".
Definition bobUpper : string := "64B000000000000000000B02".

Definition follow (db : Db) (u : ObjectId) (id : string) : Response * Db :=
  users_follow isValidObjectId castObjectId db (Some u) id.

(** Ann follows Bob, his id sent as stored. *)
Definition annFollowsBob : Db := (follow registered ann bob).2.

Definition annNoteHistory : list Request :=
  setup ++ [ PostNotes (Some ann) note1
               {| nb_title := Some "list"; nb_content := Some "milk";
                  nb_tags := Some ["todo"]; nb_isPinned := None |} ].

Definition annLikedHistory : list Request :=
  annCommentedHistory ++ [ PostPostsLike (Some ann) post1 ].

Definition selfFollow : Request := PostUsersFollow (Some ann) ann.

Definition editPost : Request :=
  PutPosts (Some bob) post1 (contentBody "edited").

Definition pinNote : Request := PutNotes (Some ann) note1 pinOnly.

Definition renameToBob : ProfileBody :=
  {| prof_bio := None; prof_avatar := None; prof_username := Some "bob" |}.


Definition eggs : NoteBody :=
  {| nb_title := Some "shop"; nb_content := Some "eggs"; nb_tags := None;
     nb_isPinned := None |}.

Definition bobsComment : Comment :=
  {| comment_id := comment1; comment_user := bob; comment_content := "mine" |}.

End Sample.

(** * Properties *)

(** ** The like toggle on a list of likes *)

Section Likes.

Implicit Types (uid : string) (ls : list Like).

Lemma likeIndex_None uid ls :
  likeIndex uid ls = None ↔ uid ∉ like_user <$> ls.
Proof.
  unfold likeIndex, Js.findIndex.
  rewrite fmap_None, list_find_None, Forall_forall.
  rewrite list_elem_of_fmap. split.
  - intros H [l [-> Hl]]. by apply (H l).
  - intros H l Hl Hu. apply H. by exists l.
Qed.

Lemma likeIndex_Some uid ls i :
  likeIndex uid ls = Some i →
  ls !! i = Some {| like_user := uid |}
  ∧ ∀ j l, ls !! j = Some l → j < i → like_user l ≠ uid.
Proof.
  unfold likeIndex, Js.findIndex. intros H.
  apply fmap_Some in H as [[k l] [H ->]].
  apply list_find_Some in H as (Hl & Hu & Hmin). simpl.
  destruct l as [u]; simpl in *; subst u. auto.
Qed.

Lemma likeIndex_push uid ls :
  likeIndex uid ls = None →
  likeIndex uid (Js.push {| like_user := uid |} ls) = Some (length ls).
Proof.
  unfold likeIndex, Js.findIndex, Js.push. intros H.
  apply fmap_None in H. rewrite list_find_app_r by done.
  simpl. rewrite decide_True by done. done.
Qed.

Lemma splice1_push {A} (x : A) (l : list A) :
  Js.splice1 (length l) (Js.push x l) = l.
Proof.
  unfold Js.splice1, Js.push. induction l; simpl; [done | by f_equal].
Qed.

Lemma toggleLike_absent uid ls :
  uid ∉ like_user <$> ls →
  toggleLike uid ls = ls ++ [ {| like_user := uid |} ].
Proof.
  intros H. unfold toggleLike.
  by rewrite (proj2 (likeIndex_None uid ls) H).
Qed.


Lemma toggleLike_NoDup uid ls :
  NoDup (like_user <$> ls) → NoDup (like_user <$> toggleLike uid ls).
Proof.
  intros Hnd. unfold toggleLike.
  destruct (likeIndex uid ls) as [i|] eqn:E.
  - unfold Js.splice1. rewrite list_fmap_delete.
    eapply sublist_NoDup; [done | apply sublist_delete].
  - apply likeIndex_None in E. unfold Js.push.
    rewrite fmap_app. simpl. apply NoDup_app. split; [done|].
    split; [|apply NoDup_singleton].
    intros x Hx Hx'. apply list_elem_of_singleton in Hx'. by subst x.
Qed.

(** With the actor recorded once, unliking leaves no entry of the actor. *)
Lemma delete_like_absent uid ls i :
  NoDup (like_user <$> ls) → ls !! i = Some {| like_user := uid |} →
  uid ∉ like_user <$> delete i ls.
Proof.
  intros Hnd Hi Hin.
  rewrite (delete_Permutation ls i _ Hi) in Hnd.
  rewrite fmap_cons in Hnd. simpl in Hnd.
  by apply NoDup_cons in Hnd as [? _].
Qed.

Lemma toggleLike_twice uid ls :
  NoDup (like_user <$> ls) → toggleLike uid (toggleLike uid ls) ≡ₚ ls.
Proof.
  intros Hnd. unfold toggleLike at 2.
  destruct (likeIndex uid ls) as [i|] eqn:E.
  - apply likeIndex_Some in E as [Hi _].
    unfold Js.splice1.
    rewrite toggleLike_absent by by apply delete_like_absent.
    rewrite (delete_Permutation ls i _ Hi) at 2.
    by rewrite Permutation_app_comm.
  - unfold toggleLike. rewrite likeIndex_push by done.
    by rewrite splice1_push.
Qed.

End Likes.

(** ** The connectivity gate of the like and comment routes *)

Lemma includes_true x l : Js.includes x l = true ↔ x ∈ l.
Proof. unfold Js.includes. apply bool_decide_eq_true. Qed.

Lemma includes_false x l : Js.includes x l = false ↔ x ∉ l.
Proof. unfold Js.includes. apply bool_decide_eq_false. Qed.

Lemma isFollowingOrFollower_false cur auth authorId uid :
  isFollowingOrFollower cur auth authorId uid = false
  ↔ (authorId ∉ following cur) ∧ (uid ∉ followers auth) ∧ uid ≠ authorId.
Proof.
  unfold isFollowingOrFollower.
  rewrite !orb_false_iff, !includes_false, String.eqb_neq.
  intuition congruence.
Qed.

Lemma isFollowingOrFollower_self cur auth uid :
  isFollowingOrFollower cur auth uid uid = true.
Proof.
  unfold isFollowingOrFollower. rewrite String.eqb_refl.
  by rewrite !orb_true_r.
Qed.

Lemma notEmpty_Some c : c ≠ "" → Validator.notEmpty (Some c) = true.
Proof. destruct c; [done | by intros _]. Qed.

Lemma notEmpty_false v :
  Validator.notEmpty v = false ↔ v = None ∨ v = Some "".
Proof.
  unfold Validator.notEmpty.
  destruct v as [[|a s]|]; simpl; intuition congruence.
Qed.

Section Gate.

Variable isValidObjectId : string → bool.

Lemma interactionGate_found db uid id post cur auth m :
  isValidObjectId id = true →
  posts db !! id = Some post →
  users db !! uid = Some cur →
  users db !! author post = Some auth →
  interactionGate isValidObjectId db (Some uid) id m
  = if isFollowingOrFollower cur auth (author post) uid
    then inr (uid, post)
    else inl (respond 403 (JMessage m)).
Proof.
  intros Hid Hp Hu Ha. unfold interactionGate.
  rewrite Hid, Hp, Hu, Ha. simpl.
  by destruct (isFollowingOrFollower _ _ _ _).
Qed.

(** C1 (amended): on an existing post with an existing actor and author,
    a like, and a comment with non-empty content, is refused with the 403
    "must follow" response exactly when the author is not in the actor's
    [following], the actor is not in the author's [followers] and the actor
    is not the author; in every other case it succeeds, so an author can
    always like and comment on their own post.  The author following the
    actor plays no part. *)
Theorem interaction_refused_iff db uid id post cur auth newId c :
  isValidObjectId id = true →
  posts db !! id = Some post →
  users db !! uid = Some cur →
  users db !! author post = Some auth →
  c ≠ "" →
  let like := posts_like isValidObjectId db (Some uid) id in
  let comment :=
    posts_comment isValidObjectId db (Some uid) newId id
      {| body_content := Some c |} in
  let unrelated :=
    (author post ∉ following cur) ∧ (uid ∉ followers auth)
    ∧ uid ≠ author post in
  (unrelated →
     like = (respond 403 (JMessage likeForbidden), db)
     ∧ comment = (respond 403 (JMessage commentForbidden), db))
  ∧ (¬ unrelated → status like.1 = 200 ∧ status comment.1 = 200)
  ∧ (uid = author post → status like.1 = 200 ∧ status comment.1 = 200).
Proof.
  intros Hid Hp Hu Ha Hc like comment unrelated.
  assert (Hgate : ∀ m, interactionGate isValidObjectId db (Some uid) id m
    = if isFollowingOrFollower cur auth (author post) uid
      then inr (uid, post) else inl (respond 403 (JMessage m)))
    by (intros m; by apply interactionGate_found).
  assert (Hno : unrelated →
    like = (respond 403 (JMessage likeForbidden), db)
    ∧ comment = (respond 403 (JMessage commentForbidden), db)).
  { intros Hun. apply isFollowingOrFollower_false in Hun.
    subst like comment. unfold posts_like, posts_comment, contentErrors.
    cbn [body_content]. rewrite notEmpty_Some by done. simpl.
    by rewrite !Hgate, Hun. }
  assert (Hyes : isFollowingOrFollower cur auth (author post) uid = true →
    status like.1 = 200 ∧ status comment.1 = 200).
  { intros Hcon. subst like comment.
    unfold posts_like, posts_comment, contentErrors.
    cbn [body_content]. rewrite notEmpty_Some by done. simpl.
    by rewrite !Hgate, Hcon. }
  split; [done|]. split.
  - intros Hun. apply Hyes.
    destruct (isFollowingOrFollower _ _ _ _) eqn:E; [done|].
    by apply isFollowingOrFollower_false in E.
  - intros ->. apply Hyes, isFollowingOrFollower_self.
Qed.

End Gate.

(** C1, counterexample: Bob, the author of the post, follows Ann, so the
    spec's connectivity predicate holds for Ann and Bob; Ann's like and
    comment are refused all the same. *)
Lemma interaction_refused_though_author_follows :
  follows Sample.bobFollowsAnn Sample.bob Sample.ann = true
  ∧ spec_isConnected Sample.bobFollowsAnn Sample.ann Sample.bob = true
  ∧ Sample.like Sample.bobFollowsAnn Sample.ann Sample.post1
    = (respond 403 (JMessage likeForbidden), Sample.bobFollowsAnn)
  ∧ Sample.comment Sample.bobFollowsAnn Sample.ann Sample.post1 "hi"
    = (respond 403 (JMessage commentForbidden), Sample.bobFollowsAnn).
Proof. vm_compute. by repeat split. Qed.

Lemma interaction_refused_iff_witness :
  Sample.like Sample.bobFollowsAnn Sample.ann Sample.post1
  = (respond 403 (JMessage likeForbidden), Sample.bobFollowsAnn)
  ∧ Sample.comment Sample.bobFollowsAnn Sample.ann Sample.post1 "hi"
    = (respond 403 (JMessage commentForbidden), Sample.bobFollowsAnn).
Proof.
  apply (interaction_refused_iff Sample.isValidObjectId Sample.bobFollowsAnn
           Sample.ann Sample.post1 (Sample.bobsPost [] [])
           (Sample.annUser [Sample.bob] []) (Sample.bobUser [] [Sample.ann])
           Sample.comment1 "hi").
  - reflexivity.
  - vm_compute. reflexivity.
  - vm_compute. reflexivity.
  - vm_compute. reflexivity.
  - discriminate.
  - repeat split; [apply not_elem_of_nil | apply not_elem_of_nil | discriminate].
Defined.

(** ** The like route *)

Section LikeRoute.

Variable isValidObjectId : string → bool.

Lemma posts_like_connected db uid id post cur auth :
  isValidObjectId id = true →
  posts db !! id = Some post →
  users db !! uid = Some cur →
  users db !! author post = Some auth →
  isFollowingOrFollower cur auth (author post) uid = true →
  posts_like isValidObjectId db (Some uid) id
  = (respond 200 (JPost id (set_likes post (toggleLike uid (likes post)))),
     set_posts db
       (<[id := set_likes post (toggleLike uid (likes post))]> (posts db))).
Proof.
  intros Hid Hp Hu Ha Hcon. unfold posts_like.
  by rewrite (interactionGate_found _ db uid id post cur auth), Hcon.
Qed.


End LikeRoute.


(** ** The follow route *)

Lemma alter_stored {A} (f : A → A) (m : gmap string A) k x :
  m !! k = Some x → alter f k m = <[k := f x]> m.
Proof.
  intros Hk. apply map_eq. intros j.
  destruct (decide (k = j)) as [<-|Hne].
  - by rewrite lookup_alter_eq, lookup_insert_eq, Hk.
  - by rewrite lookup_alter_ne, lookup_insert_ne.
Qed.

Section FollowRoute.

Variable isValidObjectId : string → bool.
Variable castObjectId : string → ObjectId.

(** What a toggle that passes the checks answers and writes, [f] and [g]
    being the actor's new [following] and the target's new [followers]. *)
Lemma users_follow_run db uid id cur tgt :
  id ≠ "" → isValidObjectId id = true → id ≠ uid →
  users db !! uid = Some cur → users db !! castObjectId id = Some tgt →
  ∃ f g,
    users_follow isValidObjectId castObjectId db (Some uid) id
    = (respond 200
         (JFollow
            (if Js.includes id (following cur)
             then "Unfollowed successfully" else "Followed successfully")
            (negb (Js.includes id (following cur)))
            (length g)),
       set_users db
         (alter (λ u, set_followers u g) (castObjectId id)
            (alter (λ u, set_following u f) uid (users db))))
    ∧ (id ∈ following cur →
         f = filter (λ x, x ≠ id) (following cur)
         ∧ g = filter (λ x, x ≠ uid) (followers tgt))
    ∧ (id ∉ following cur →
         f = following cur ++ [castObjectId id]
         ∧ g = followers tgt ++ [uid]).
Proof.
  intros Hne Hid Hself Hu Ht. unfold users_follow.
  apply String.eqb_neq in Hne, Hself.
  rewrite Hne, Hid, Ht, Hself, Hu. simpl.
  destruct (Js.includes id (following cur)) eqn:E;
    eexists _, _; (split; [reflexivity|]).
  - apply includes_true in E. by split.
  - apply includes_false in E. by split.
Qed.

(** The same when the parameter casts to another user than the actor: two
    documents are written. *)
Lemma users_follow_effect db uid id cur tgt :
  id ≠ "" → isValidObjectId id = true → id ≠ uid → castObjectId id ≠ uid →
  users db !! uid = Some cur → users db !! castObjectId id = Some tgt →
  ∃ f g,
    users_follow isValidObjectId castObjectId db (Some uid) id
    = (respond 200
         (JFollow
            (if Js.includes id (following cur)
             then "Unfollowed successfully" else "Followed successfully")
            (negb (Js.includes id (following cur)))
            (length g)),
       set_users db
         (<[castObjectId id := set_followers tgt g]>
            (<[uid := set_following cur f]> (users db))))
    ∧ (id ∈ following cur →
         f = filter (λ x, x ≠ id) (following cur)
         ∧ g = filter (λ x, x ≠ uid) (followers tgt))
    ∧ (id ∉ following cur →
         f = following cur ++ [castObjectId id]
         ∧ g = followers tgt ++ [uid]).
Proof.
  intros Hne Hid Hself Hother Hu Ht.
  destruct (users_follow_run db uid id cur tgt Hne Hid Hself Hu Ht)
    as (f & g & Hrun & Hun & Hfo).
  exists f, g. split; [|done]. rewrite Hrun. do 2 f_equal.
  rewrite (alter_stored _ (users db) uid cur Hu).
  rewrite (alter_stored (λ u, set_followers u g) _ (castObjectId id) tgt);
    [done|].
  by rewrite lookup_insert_ne.
Qed.

(** Every call either leaves the database alone or is a toggle that passes
    the checks. *)
Lemma users_follow_cases db reqUser id :
  (users_follow isValidObjectId castObjectId db reqUser id).2 = db
  ∨ ∃ uid cur tgt,
      reqUser = Some uid ∧ id ≠ "" ∧ isValidObjectId id = true ∧ id ≠ uid
      ∧ users db !! uid = Some cur
      ∧ users db !! castObjectId id = Some tgt.
Proof.
  unfold users_follow.
  destruct (String.eqb id "") eqn:E1; [by left|].
  destruct (isValidObjectId id) eqn:E2; [|by left]. simpl.
  destruct reqUser as [uid|]; [|by left].
  destruct (users db !! castObjectId id) as [tgt|] eqn:E3; [|by left].
  destruct (String.eqb id uid) eqn:E4; [by left|].
  destruct (users db !! uid) as [cur|] eqn:E5; [|by left].
  right. exists uid, cur, tgt.
  apply String.eqb_neq in E1, E4. done.
Qed.

End FollowRoute.

(** ** Invariants of the reachable databases *)

Lemma dbInvariant_empty : dbInvariant emptyDb.
Proof. split; simpl. intros id p H. by rewrite lookup_empty in H. Qed.

Lemma dbInvariant_same_posts db db' :
  posts db' = posts db → dbInvariant db → dbInvariant db'.
Proof. intros Hp [Hl]. split. by rewrite Hp. Qed.

Lemma dbInvariant_insert_post db id p :
  dbInvariant db → likesUnique p →
  dbInvariant (set_posts db (<[id := p]> (posts db))).
Proof.
  intros [Hl] Hp. split; simpl.
  intros k q Hk. destruct (decide (id = k)) as [->|Hne].
  - rewrite lookup_insert_eq in Hk. by injection Hk as <-.
  - rewrite lookup_insert_ne in Hk by done. by eapply Hl.
Qed.

Lemma dbInvariant_delete_post db id :
  dbInvariant db → dbInvariant (set_posts db (delete id (posts db))).
Proof.
  intros [Hl]. split; simpl.
  intros k q Hk. apply lookup_delete_Some in Hk as [_ Hk]. by eapply Hl.
Qed.

Lemma users_profile_cases db u b :
  (users_profile db u b).2 = db
  ∨ ∃ uid, (users_profile db u b).2
           = set_users db (alter (updateFields b) uid (users db)).
Proof.
  unfold users_profile.
  repeat case_match; simpl; try (by left); right; by eexists.
Qed.

Section Invariant.

Variable isValidObjectId : string → bool.
Variable castObjectId : string → ObjectId.
Variable isEmail : string → bool.
Variable hashPassword : string → string.
Variable comparePassword : string → string → bool.
Variable generateToken : ObjectId → string.

Lemma interactionGate_inr db reqUser id m uid post :
  interactionGate isValidObjectId db reqUser id m = inr (uid, post) →
  posts db !! id = Some post.
Proof.
  unfold interactionGate. intros H.
  repeat case_match; simplify_eq/=. done.
Qed.

Lemma posts_create_inv db u newId b :
  dbInvariant db → dbInvariant (posts_create db u newId b).2.
Proof.
  intros Hinv. unfold posts_create.
  repeat case_match; simpl; try done.
  apply dbInvariant_insert_post; [done|]. apply NoDup_nil_2.
Qed.

Lemma posts_update_inv db u id b :
  dbInvariant db → dbInvariant (posts_update isValidObjectId db u id b).2.
Proof.
  intros Hinv. unfold posts_update.
  repeat case_match; simpl; try done.
  apply dbInvariant_insert_post; [done|].
  unfold likesUnique. simpl. by eapply (inv_likes _ Hinv).
Qed.

Lemma posts_delete_inv db u id :
  dbInvariant db → dbInvariant (posts_delete isValidObjectId db u id).2.
Proof.
  intros Hinv. unfold posts_delete.
  repeat case_match; simpl; try done.
  by apply dbInvariant_delete_post.
Qed.

Lemma posts_like_inv db u id :
  dbInvariant db → dbInvariant (posts_like isValidObjectId db u id).2.
Proof.
  intros Hinv. unfold posts_like.
  destruct (interactionGate _ _ _ _ _) as [r|[uid post]] eqn:E; [done|].
  apply interactionGate_inr in E. simpl.
  apply dbInvariant_insert_post; [done|].
  unfold likesUnique. simpl. apply toggleLike_NoDup.
  by eapply (inv_likes _ Hinv).
Qed.

Lemma posts_comment_inv db u newId id b :
  dbInvariant db →
  dbInvariant (posts_comment isValidObjectId db u newId id b).2.
Proof.
  intros Hinv. unfold posts_comment.
  destruct (negb _); [done|].
  destruct (interactionGate _ _ _ _ _) as [r|[uid post]] eqn:E; [done|].
  apply interactionGate_inr in E. simpl.
  apply dbInvariant_insert_post; [done|].
  unfold likesUnique. simpl. by eapply (inv_likes _ Hinv).
Qed.

Lemma posts_deleteComment_inv db u pid cid :
  dbInvariant db →
  dbInvariant (posts_deleteComment isValidObjectId db u pid cid).2.
Proof.
  intros Hinv. unfold posts_deleteComment.
  repeat case_match; simpl; try done.
  apply dbInvariant_insert_post; [done|].
  unfold likesUnique. simpl. by eapply (inv_likes _ Hinv).
Qed.

Lemma notes_create_inv db u newId b :
  dbInvariant db → dbInvariant (notes_create db u newId b).2.
Proof.
  intros Hinv. unfold notes_create.
  repeat case_match; simpl; try done.
  by apply (dbInvariant_same_posts db).
Qed.

Lemma notes_update_inv db u id b :
  dbInvariant db → dbInvariant (notes_update isValidObjectId db u id b).2.
Proof.
  intros Hinv. unfold notes_update.
  repeat case_match; simpl; try done.
  by apply (dbInvariant_same_posts db).
Qed.

Lemma notes_delete_inv db u id :
  dbInvariant db → dbInvariant (notes_delete isValidObjectId db u id).2.
Proof.
  intros Hinv. unfold notes_delete.
  repeat case_match; simpl; try done.
  by apply (dbInvariant_same_posts db).
Qed.

Lemma auth_register_inv db newId b :
  dbInvariant db →
  dbInvariant (auth_register isEmail hashPassword generateToken db newId b).2.
Proof.
  intros Hinv. unfold auth_register.
  repeat case_match; simpl; try done.
  by apply (dbInvariant_same_posts db).
Qed.

Lemma users_profile_inv db u b :
  dbInvariant db → dbInvariant (users_profile db u b).2.
Proof.
  intros Hinv.
  destruct (users_profile_cases db u b) as [->|[uid ->]]; [done|].
  by apply (dbInvariant_same_posts db).
Qed.

Lemma users_follow_inv db u id :
  dbInvariant db →
  dbInvariant (users_follow isValidObjectId castObjectId db u id).2.
Proof.
  intros Hinv. unfold users_follow.
  repeat case_match; simpl; try done;
    by apply (dbInvariant_same_posts db).
Qed.

Lemma handle_inv db r :
  dbInvariant db →
  dbInvariant
    (handle isValidObjectId castObjectId isEmail hashPassword
       comparePassword generateToken db r).2.
Proof.
  intros Hinv. destruct r; simpl;
    eauto using auth_register_inv, users_follow_inv, users_profile_inv,
      posts_create_inv, posts_update_inv, posts_delete_inv, posts_like_inv,
      posts_comment_inv, posts_deleteComment_inv, notes_create_inv,
      notes_update_inv, notes_delete_inv.
Qed.

(** In every database the server can reach, the likes of every post hold
    each user once. *)
Lemma exec_inv history db :
  dbInvariant db →
  dbInvariant
    (exec isValidObjectId castObjectId isEmail hashPassword comparePassword
       generateToken history db).
Proof.
  unfold exec. revert db.
  induction history as [|r history IH]; intros db Hinv; simpl; [done|].
  apply IH. by apply handle_inv.
Qed.

End Invariant.

(** ** Two toggles in a row *)

Lemma filter_ne_push (a : string) (g : list string) :
  filter (λ x, x ≠ a) (g ++ [a]) = filter (λ x, x ≠ a) g.
Proof.
  rewrite filter_app, filter_cons_False by (intros H; by apply H).
  by rewrite filter_nil, app_nil_r.
Qed.

Lemma filter_ne_absent (a : string) (g : list string) :
  a ∉ g → filter (λ x, x ≠ a) g = g.
Proof.
  induction g as [|y g IH]; intros Hin; [done|].
  apply not_elem_of_cons in Hin as [Hne Hin].
  rewrite filter_cons_True by done. by rewrite IH.
Qed.

Lemma filter_ne_length (a : string) (g : list string) :
  NoDup g → a ∈ g → S (length (filter (λ x, x ≠ a) g)) = length g.
Proof.
  induction g as [|y g IH]; intros Hnd Hin.
  - by apply elem_of_nil in Hin.
  - apply NoDup_cons in Hnd as [Hy Hnd].
    destruct (decide (y = a)) as [->|Hne].
    + rewrite filter_cons_False by (intros H; by apply H).
      by rewrite filter_ne_absent.
    + rewrite filter_cons_True by done. simpl. f_equal. apply IH; [done|].
      apply elem_of_cons in Hin as [->|Hin]; done.
Qed.

Section TwoToggles.

Variable isValidObjectId : string → bool.
Variable castObjectId : string → ObjectId.

(** Two follow toggles in a row, the target's id being sent as it is
    stored, on an edge that is recorded once and on both sides or not at
    all: both succeed, the actor's record lists the same users as before and
    the target's followers are the same users in the same number. *)
Lemma users_follow_twice db a b ua ub :
  b ≠ "" → isValidObjectId b = true → b ≠ a → castObjectId b = b →
  users db !! a = Some ua → users db !! b = Some ub →
  (b ∈ following ua ↔ a ∈ followers ub) → NoDup (followers ub) →
  ∃ r1 db1 r2 db2 ua2 ub2,
    users_follow isValidObjectId castObjectId db (Some a) b = (r1, db1)
    ∧ status r1 = 200
    ∧ users_follow isValidObjectId castObjectId db1 (Some a) b = (r2, db2)
    ∧ status r2 = 200
    ∧ users db2 !! a = Some ua2 ∧ users db2 !! b = Some ub2
    ∧ followers ua2 = followers ua ∧ following ub2 = following ub
    ∧ (∀ x, x ∈ following ua2 ↔ x ∈ following ua)
    ∧ (∀ x, x ∈ followers ub2 ↔ x ∈ followers ub)
    ∧ length (followers ub2) = length (followers ub).
Proof.
  intros Hne Hid Hself Hcast Ha Hb Hsym Hnd.
  assert (Hother : castObjectId b ≠ a) by by rewrite Hcast.
  destruct (users_follow_effect isValidObjectId castObjectId db a b ua ub)
    as (f1 & g1 & Hrun1 & Hun1 & Hfo1); try done; [by rewrite Hcast|].
  rewrite Hcast in Hrun1, Hfo1.
  set (db1 := set_users db (<[b := set_followers ub g1]>
                              (<[a := set_following ua f1]> (users db))))
    in *.
  assert (Ha1 : users db1 !! a = Some (set_following ua f1)).
  { simpl. rewrite lookup_insert_ne by done. apply lookup_insert_eq. }
  assert (Hb1 : users db1 !! b = Some (set_followers ub g1))
    by apply lookup_insert_eq.
  destruct (users_follow_effect isValidObjectId castObjectId db1 a b
              (set_following ua f1) (set_followers ub g1))
    as (f2 & g2 & Hrun2 & Hun2 & Hfo2); try done; [by rewrite Hcast|].
  rewrite Hcast in Hrun2, Hfo2. simpl in Hun2, Hfo2.
  eexists _, db1, _, _, (set_following (set_following ua f1) f2),
    (set_followers (set_followers ub g1) g2).
  split; [exact Hrun1|]. split; [done|].
  split; [exact Hrun2|]. split; [done|].
  split. { simpl. rewrite lookup_insert_ne by done. apply lookup_insert_eq. }
  split; [apply lookup_insert_eq|].
  split; [done|]. split; [done|]. simpl.
  destruct (decide (b ∈ following ua)) as [Hin|Hin].
  - destruct (Hun1 Hin) as [Hf1 Hg1].
    assert (Hout : b ∉ f1).
    { rewrite Hf1, list_elem_of_filter. tauto. }
    destruct (Hfo2 Hout) as [-> ->]. rewrite Hf1, Hg1.
    split; [|split].
    + intros x. rewrite elem_of_app, list_elem_of_filter.
      rewrite list_elem_of_singleton.
      destruct (decide (x = b)) as [->|]; tauto.
    + intros x. rewrite elem_of_app, list_elem_of_filter.
      rewrite list_elem_of_singleton.
      destruct (decide (x = a)) as [->|]; tauto.
    + rewrite length_app. simpl. rewrite Nat.add_1_r.
      apply filter_ne_length; tauto.
  - destruct (Hfo1 Hin) as [Hf1 Hg1].
    assert (Hnow : b ∈ f1).
    { rewrite Hf1, elem_of_app, list_elem_of_singleton. tauto. }
    destruct (Hun2 Hnow) as [-> ->]. rewrite Hf1, Hg1.
    rewrite !filter_ne_push, !filter_ne_absent by tauto. done.
Qed.

End TwoToggles.

Section Reachable.

Variable isValidObjectId : string → bool.
Variable castObjectId : string → ObjectId.
Variable isEmail : string → bool.
Variable hashPassword : string → string.
Variable comparePassword : string → string → bool.
Variable generateToken : ObjectId → string.

(** C3: in the database reached by any history of requests, two likes in
    a row by a connected actor on an existing post both succeed and leave
    the post with the likes it had: the same number of likes and the same
    entries (a permutation of the original list); author, content and
    comments are untouched. *)
Theorem like_twice_restores_likes history uid id post cur auth :
  let db := exec isValidObjectId castObjectId isEmail hashPassword
              comparePassword generateToken history emptyDb in
  isValidObjectId id = true →
  posts db !! id = Some post →
  users db !! uid = Some cur →
  users db !! author post = Some auth →
  isFollowingOrFollower cur auth (author post) uid = true →
  ∃ post1 db1 post2 db2,
    posts_like isValidObjectId db (Some uid) id
    = (respond 200 (JPost id post1), db1)
    ∧ posts_like isValidObjectId db1 (Some uid) id
      = (respond 200 (JPost id post2), db2)
    ∧ posts db2 !! id = Some post2
    ∧ length (likes post2) = length (likes post)
    ∧ (∀ l, l ∈ likes post2 ↔ l ∈ likes post)
    ∧ likes post2 ≡ₚ likes post
    ∧ author post2 = author post ∧ content post2 = content post
    ∧ comments post2 = comments post.
Proof.
  intros db Hid Hp Hu Ha Hcon.
  assert (Hinv : dbInvariant db)
    by apply exec_inv, dbInvariant_empty.
  pose proof (inv_likes _ Hinv id post Hp) as Hnd.
  set (post1 := set_likes post (toggleLike uid (likes post))).
  set (db1 := set_posts db (<[id := post1]> (posts db))).
  set (post2 := set_likes post1 (toggleLike uid (likes post1))).
  exists post1, db1, post2, (set_posts db1 (<[id := post2]> (posts db1))).
  assert (Hperm : likes post2 ≡ₚ likes post)
    by (simpl; by apply toggleLike_twice).
  split; [by eapply posts_like_connected|].
  split.
  { apply (posts_like_connected _ db1 uid id post1 cur auth); try done.
    apply lookup_insert_eq. }
  split; [apply lookup_insert_eq|].
  split; [by rewrite Hperm|].
  split; [intros l; by rewrite Hperm|]. done.
Qed.

End Reachable.

(** ** Login and registration *)

Section Auth.

Variable isEmail : string → bool.
Variable hashPassword : string → string.
Variable comparePassword : string → string → bool.
Variable generateToken : ObjectId → string.

(** C6: for a login request with a well-formed email, the response when no
    user has that email is the very response given when a user has it but
    the password does not verify: status 400 and, the password being
    present, the message "Invalid credentials". *)
Theorem login_failure_uniform db1 db2 b mail id u :
  login_email b = Some mail → isEmail mail = true →
  findOne (λ u, email u = mail) (users db1) = None →
  findOne (λ u, email u = mail) (users db2) = Some (id, u) →
  (∀ p, login_password b = Some p → comparePassword p (password u) = false) →
  auth_login isEmail comparePassword generateToken db1 b
  = auth_login isEmail comparePassword generateToken db2 b
  ∧ status (auth_login isEmail comparePassword generateToken db1 b) = 400
  ∧ (is_Some (login_password b) →
       auth_login isEmail comparePassword generateToken db1 b
       = respond 400 (JMessage "Invalid credentials")).
Proof.
  intros Hmail Hwf Hnone Hsome Hfail. unfold auth_login, loginErrors.
  rewrite Hmail. simpl. rewrite Hwf. simpl.
  destruct (login_password b) as [p|] eqn:Hp; simpl.
  - rewrite Hnone, Hsome, (Hfail p eq_refl). simpl. done.
  - split; [done|]. split; [done|]. by intros [? ?].
Qed.

Lemma isLength_false n v :
  Validator.isLength n v = false ↔ String.length (Validator.toString v) < n.
Proof. unfold Validator.isLength. rewrite Nat.leb_gt. done. Qed.

(** C10: a registration request whose username has fewer than 3
    characters, whose password has fewer than 6, or whose email is not a
    well-formed address is answered 400 with the validation errors, which
    name the failing fields; the answer does not depend on the stored users
    (no duplicate check takes part) and the database is unchanged. *)
Theorem register_rejects_invalid db newId b :
  String.length (Validator.toString (reg_username b)) < 3
  ∨ String.length (Validator.toString (reg_password b)) < 6
  ∨ isEmailField isEmail (reg_email b) = false →
  auth_register isEmail hashPassword generateToken db newId b
  = (respond 400 (JErrors (registerErrors isEmail b)), db)
  ∧ registerErrors isEmail b ≠ []
  ∧ (String.length (Validator.toString (reg_username b)) < 3 →
       {| path := "username";
          msg := "Username must be at least 3 characters" |}
       ∈ registerErrors isEmail b)
  ∧ (isEmailField isEmail (reg_email b) = false →
       {| path := "email"; msg := "Please enter a valid email" |}
       ∈ registerErrors isEmail b)
  ∧ (String.length (Validator.toString (reg_password b)) < 6 →
       {| path := "password";
          msg := "Password must be at least 6 characters" |}
       ∈ registerErrors isEmail b).
Proof.
  intros Hbad.
  assert (Hu : String.length (Validator.toString (reg_username b)) < 3 →
            {| path := "username";
               msg := "Username must be at least 3 characters" |}
            ∈ registerErrors isEmail b).
  { intros H%isLength_false. unfold registerErrors. rewrite H.
    apply elem_of_app. left. apply list_elem_of_singleton. done. }
  assert (He : isEmailField isEmail (reg_email b) = false →
            {| path := "email"; msg := "Please enter a valid email" |}
            ∈ registerErrors isEmail b).
  { intros H. unfold registerErrors. rewrite H.
    apply elem_of_app. right. apply elem_of_app. left.
    apply list_elem_of_singleton. done. }
  assert (Hp : String.length (Validator.toString (reg_password b)) < 6 →
            {| path := "password";
               msg := "Password must be at least 6 characters" |}
            ∈ registerErrors isEmail b).
  { intros H%isLength_false. unfold registerErrors. rewrite H.
    apply elem_of_app. right. apply elem_of_app. right.
    apply list_elem_of_singleton. done. }
  assert (Hne : registerErrors isEmail b ≠ []).
  { intros Hnil.
    destruct Hbad as [H|[H|H]];
      [apply Hu in H | apply Hp in H | apply He in H];
      rewrite Hnil in H; by apply elem_of_nil in H. }
  split; [|done].
  unfold auth_register.
  destruct (registerErrors isEmail b) eqn:E; [done|]. done.
Qed.

End Auth.

(** ** Post content, comment deletion *)

Lemma contentErrors_empty m b :
  body_content b = None ∨ body_content b = Some "" →
  contentErrors m b = [ {| path := "content"; msg := m |} ].
Proof.
  intros H%notEmpty_false. unfold contentErrors. by rewrite H.
Qed.

Lemma contentErrors_given m b c :
  body_content b = Some c → c ≠ "" → contentErrors m b = [].
Proof.
  intros H Hc. unfold contentErrors. rewrite H.
  by rewrite notEmpty_Some.
Qed.

Section PostRoutes.

Variable isValidObjectId : string → bool.

(** C7 (amended): post creation and post update answer 400 "Content is
    required" when the content is absent or the empty string, whatever
    else the request holds; any other content, blank or not, passes the
    validator and, for an authenticated author (on update: of an existing
    post they own), is stored as given, without trimming. *)
Theorem post_content_validation db reqUser newId id b :
  (body_content b = None ∨ body_content b = Some "" →
     posts_create db reqUser newId b
     = (emptyContent "Content is required", db)
     ∧ posts_update isValidObjectId db reqUser id b
       = (emptyContent "Content is required", db))
  ∧ (∀ c uid,
       body_content b = Some c → c ≠ "" → reqUser = Some uid →
       (posts db !! newId = None →
          posts_create db reqUser newId b
          = (respond 201
               (JPost newId {| author := uid; content := c; likes := [];
                               comments := [] |}),
             set_posts db
               (<[newId := {| author := uid; content := c; likes := [];
                              comments := [] |}]> (posts db))))
       ∧ (∀ post,
            isValidObjectId id = true → posts db !! id = Some post →
            author post = uid →
            posts_update isValidObjectId db reqUser id b
            = (respond 200 (JPost id (set_content post c)),
               set_posts db (<[id := set_content post c]> (posts db))))).
Proof.
  split.
  - intros Hempty. unfold posts_create, posts_update.
    rewrite (contentErrors_empty _ b Hempty). done.
  - intros c uid Hb Hc ->. unfold posts_create, posts_update.
    rewrite (contentErrors_given _ b c Hb Hc), Hb. simpl. split.
    + by intros ->.
    + intros post -> -> <-. simpl. by rewrite String.eqb_refl.
Qed.

(** C8: with well-formed ids and an authenticated actor, deleting a
    comment answers 404 when the post is absent and 404 when no comment of
    the post has the id; when the id resolves to comment [c] it answers 403
    to every actor other than [c]'s author, the post's author included, and
    only for [c]'s author does it remove the comment and answer 200. *)
Theorem deleteComment_by_comment_author_only db uid postId commentId :
  isValidObjectId postId = true → isValidObjectId commentId = true →
  let res := posts_deleteComment isValidObjectId db (Some uid) postId
               commentId in
  (posts db !! postId = None →
     res = (respond 404 (JMessage "Post not found"), db))
  ∧ (∀ post,
       posts db !! postId = Some post →
       (Forall (λ c, comment_id c ≠ commentId) (comments post) →
          res = (respond 404 (JMessage "Comment not found"), db))
       ∧ (∀ i c,
            list_find (λ c, comment_id c = commentId) (comments post)
            = Some (i, c) →
            (uid ≠ comment_user c →
               res = (respond 403
                        (JMessage "Not authorized to delete this comment"),
                      db))
            ∧ (uid = author post → uid ≠ comment_user c →
                 status res.1 = 403 ∧ res.2 = db)
            ∧ (uid = comment_user c →
                 res = (respond 200 (JMessage "Comment deleted"),
                        set_posts db
                          (<[postId := set_comments post
                                         (delete i (comments post))]>
                             (posts db))))
            ∧ (status res.1 = 200 → uid = comment_user c))).
Proof.
  intros Hp Hc res. subst res. unfold posts_deleteComment.
  rewrite Hp, Hc. simpl. split.
  - by intros ->.
  - intros post ->. split.
    + intros Hall.
      pose proof (proj2 (list_find_None (λ c, comment_id c = commentId)
                           (comments post)) Hall) as Hnone.
      unfold commentIndex, Js.findIndex. by rewrite Hnone.
    + intros i c Hfind. unfold commentIndex, Js.findIndex.
      rewrite Hfind. simpl.
      apply list_find_Some in Hfind as (Hi & _ & _). rewrite Hi.
      destruct (String.eqb (comment_user c) uid) eqn:E; simpl.
      * apply String.eqb_eq in E. subst uid.
        split; [done|]. split; [done|]. done.
      * apply String.eqb_neq in E.
        split; [done|]. split; [done|]. split; [congruence|done].
Qed.

(** A comment of a post whose comment ids are unique is the one its id
    resolves to. *)
Lemma comment_found_by_id (cs : list Comment) i c :
  NoDup (comment_id <$> cs) → cs !! i = Some c →
  list_find (λ c', comment_id c' = comment_id c) cs = Some (i, c).
Proof.
  intros Hnd Hi. apply list_find_Some. split; [done|]. split; [done|].
  intros j y Hj Hlt Heq.
  assert (j = i); [|lia].
  eapply (NoDup_lookup _ _ _ (comment_id c) Hnd).
  - by rewrite list_lookup_fmap, Hj, <- Heq.
  - by rewrite list_lookup_fmap, Hi.
Qed.

End PostRoutes.

(** ** Note update *)

Lemma noteValid_assign note b t c :
  nb_title b = Some t → t ≠ "" → String.length t ≤ 200 →
  nb_content b = Some c → c ≠ "" → String.length c ≤ 5000 →
  Forall (λ tag, String.length tag ≤ 50) (default [] (nb_tags b)) →
  noteValid (assignNote note b) = true.
Proof.
  intros Ht Htne Htlen Hc Hcne Hclen Htags.
  unfold noteValid, assignNote. simpl. rewrite Ht, Hc. simpl.
  apply String.eqb_neq in Htne, Hcne. rewrite Htne, Hcne.
  apply Nat.leb_le in Htlen, Hclen. rewrite Htlen, Hclen. simpl.
  apply forallb_forall. intros tag Hin. apply Nat.leb_le.
  rewrite Forall_forall in Htags. apply Htags.
  apply list_elem_of_In. by destruct (nb_tags b).
Qed.

Section NoteRoutes.

Variable isValidObjectId : string → bool.

(** C9 (amended): an update of an existing note by its owner, with a
    non-empty title of at most 200 characters, a non-empty content of at
    most 5000 characters and tags of at most 50 characters each, succeeds
    and stores the note with: the prior [isPinned] when the request has
    none, the request's [isPinned] when it has one, no tags when the
    request has none, and the request's tags otherwise. *)
Theorem note_update_fields db uid id note b t c :
  isValidObjectId id = true →
  notes db !! id = Some note →
  note_user note = uid →
  nb_title b = Some t → t ≠ "" → String.length t ≤ 200 →
  nb_content b = Some c → c ≠ "" → String.length c ≤ 5000 →
  Forall (λ tag, String.length tag ≤ 50) (default [] (nb_tags b)) →
  ∃ note',
    notes_update isValidObjectId db (Some uid) id b
    = (respond 200 (JNote id note'),
       set_notes db (<[id := note']> (notes db)))
    ∧ title note' = t ∧ note_content note' = c
    ∧ note_user note' = note_user note
    ∧ (nb_isPinned b = None → isPinned note' = isPinned note)
    ∧ (∀ p, nb_isPinned b = Some p → isPinned note' = p)
    ∧ (nb_tags b = None → tags note' = [])
    ∧ (∀ ts, nb_tags b = Some ts → tags note' = ts).
Proof.
  intros Hid Hn Hown Ht Htne Htlen Hc Hcne Hclen Htags.
  exists (assignNote note b). split.
  - pose proof (noteValid_assign note b t c Ht Htne Htlen Hc Hcne Hclen
                  Htags) as Hvalid.
    assert (noteErrors b = []) as Hnoerr.
    { unfold noteErrors. rewrite Ht, Hc. by rewrite !notEmpty_Some. }
    unfold notes_update. rewrite Hnoerr. cbn [Validator.isEmpty negb].
    rewrite Hid. cbn [negb]. rewrite Hn, Hown, String.eqb_refl.
    cbn [negb]. by rewrite Hvalid.
  - unfold assignNote. simpl. rewrite Ht, Hc.
    do 3 (split; [done|]).
    split; [by intros ->|]. split; [by intros p ->|].
    split; [by intros ->|]. by intros ts ->.
Qed.

End NoteRoutes.

(** ** The theorems on the sample data *)

Lemma like_twice_restores_likes_witness :
  ∃ post1 db1 post2 db2,
    Sample.like Sample.annCommented Sample.ann Sample.post1
    = (respond 200 (JPost Sample.post1 post1), db1)
    ∧ Sample.like db1 Sample.ann Sample.post1
      = (respond 200 (JPost Sample.post1 post2), db2)
    ∧ length (likes post2) = 0.
Proof.
  destruct (like_twice_restores_likes Sample.isValidObjectId
              Sample.castObjectId Sample.isEmail Sample.hashPassword
              Sample.comparePassword Sample.generateToken
              Sample.annCommentedHistory Sample.ann Sample.post1
              (Sample.bobsPost [] [Sample.annsComment])
              (Sample.annUser [] [Sample.bob])
              (Sample.bobUser [Sample.ann] []))
    as (p1 & d1 & p2 & d2 & H1 & H2 & _ & Hlen & _).
  - reflexivity.
  - vm_compute. reflexivity.
  - vm_compute. reflexivity.
  - vm_compute. reflexivity.
  - vm_compute. reflexivity.
  - exists p1, d1, p2, d2. split; [exact H1|]. split; [exact H2|exact Hlen].
Defined.

(** C4: two follow toggles in a row do not always restore the graph.  Ann
    and Bob are registered and unconnected, Bob has no follower.  Ann
    toggles Bob twice, his id sent with its hex digits in upper case: both
    requests are answered "Followed successfully" with [isFollowing] true,
    Bob's follower count goes from 0 to 1 to 2, and Ann ends up connected
    to Bob, whom she lists twice.  Two more toggles, now with the id as it
    is stored, take his follower count from 2 to 0 and then to 1. *)
Theorem follow_twice_other_spelling_adds_two_edges :
  let db0 := Sample.registered in
  let t1 := Sample.follow db0 Sample.ann Sample.bobUpper in
  let t2 := Sample.follow t1.2 Sample.ann Sample.bobUpper in
  let t3 := Sample.follow t2.2 Sample.ann Sample.bob in
  let t4 := Sample.follow t3.2 Sample.ann Sample.bob in
  users db0 !! Sample.ann = Some (Sample.annUser [] [])
  ∧ users db0 !! Sample.bob = Some (Sample.bobUser [] [])
  ∧ isConnected db0 Sample.ann Sample.bob = false
  ∧ t1.1 = respond 200 (JFollow "Followed successfully" true 1)
  ∧ t2.1 = respond 200 (JFollow "Followed successfully" true 2)
  ∧ users t2.2 !! Sample.ann
    = Some (Sample.annUser [] [Sample.bob; Sample.bob])
  ∧ users t2.2 !! Sample.bob
    = Some (Sample.bobUser [Sample.ann; Sample.ann] [])
  ∧ isConnected t2.2 Sample.ann Sample.bob = true
  ∧ t3.1 = respond 200 (JFollow "Unfollowed successfully" false 0)
  ∧ t4.1 = respond 200 (JFollow "Followed successfully" true 1)
  ∧ users t4.2 !! Sample.bob = Some (Sample.bobUser [Sample.ann] []).
Proof. vm_compute. repeat split; reflexivity. Qed.

(** C5: a toggle on an existing edge does not always remove it.  Ann
    follows Bob, the edge being recorded on both sides.  She toggles again,
    his id sent with its hex digits in upper case: the request is answered
    "Followed successfully" with [isFollowing] true and a count of 2, Bob
    is added to Ann's [following] a second time and Ann to Bob's
    [followers] a second time. *)
Theorem follow_again_other_spelling_pushes :
  let db := Sample.annFollowsBob in
  let t := Sample.follow db Sample.ann Sample.bobUpper in
  users db !! Sample.ann = Some (Sample.annUser [] [Sample.bob])
  ∧ users db !! Sample.bob = Some (Sample.bobUser [Sample.ann] [])
  ∧ t.1 = respond 200 (JFollow "Followed successfully" true 2)
  ∧ users t.2 !! Sample.ann
    = Some (Sample.annUser [] [Sample.bob; Sample.bob])
  ∧ users t.2 !! Sample.bob
    = Some (Sample.bobUser [Sample.ann; Sample.ann] []).
Proof. vm_compute. repeat split; reflexivity. Qed.

Lemma login_failure_uniform_witness :
  auth_login Sample.isEmail Sample.comparePassword Sample.generateToken
    emptyDb Sample.wrongPassword
  = auth_login Sample.isEmail Sample.comparePassword Sample.generateToken
      Sample.registered Sample.wrongPassword.
Proof.
  destruct (login_failure_uniform Sample.isEmail Sample.comparePassword
              Sample.generateToken emptyDb Sample.registered
              Sample.wrongPassword "ann@example.com" Sample.ann
              (Sample.annUser [] [])) as [Hsame _].
  - reflexivity.
  - reflexivity.
  - vm_compute. reflexivity.
  - vm_compute. reflexivity.
  - intros p [= <-]. reflexivity.
  - exact Hsame.
Defined.

Lemma register_rejects_invalid_witness :
  auth_register Sample.isEmail Sample.hashPassword Sample.generateToken
    Sample.registered Sample.post2
    (Sample.registerBody "al" "al@example.com" "secret3")
  = (respond 400
       (JErrors [ {| path := "username";
                     msg := "Username must be at least 3 characters" |} ]),
     Sample.registered).
Proof.
  destruct (register_rejects_invalid Sample.isEmail Sample.hashPassword
              Sample.generateToken Sample.registered Sample.post2
              (Sample.registerBody "al" "al@example.com" "secret3"))
    as [Hrun _].
  - left. simpl. lia.
  - exact Hrun.
Defined.

(** C7, counterexample: content of three spaces is empty after trimming, yet
    creation answers 201 and update answers 200, and the blank content is what
    the post holds. *)
Lemma blank_content_accepted :
  spec_emptyContent (Some Sample.blank) = true
  ∧ (posts_create Sample.registered (Some Sample.bob) Sample.post2
       (Sample.contentBody Sample.blank)).1
    = respond 201
        (JPost Sample.post2
           {| author := Sample.bob; content := Sample.blank; likes := [];
              comments := [] |})
  ∧ (posts_update Sample.isValidObjectId Sample.registered (Some Sample.bob)
       Sample.post1 (Sample.contentBody Sample.blank)).1
    = respond 200
        (JPost Sample.post1
           {| author := Sample.bob; content := Sample.blank; likes := [];
              comments := [] |}).
Proof. vm_compute. by repeat split. Qed.

Lemma post_content_validation_witness :
  posts_create Sample.registered (Some Sample.bob) Sample.post2
    {| body_content := Some "" |}
  = (emptyContent "Content is required", Sample.registered)
  ∧ posts_update Sample.isValidObjectId Sample.registered (Some Sample.bob)
      Sample.post1 (Sample.contentBody "hi")
    = (respond 200 (JPost Sample.post1 (set_content (Sample.bobsPost [] []) "hi")),
       set_posts Sample.registered
         (<[Sample.post1 := set_content (Sample.bobsPost [] []) "hi"]>
            (posts Sample.registered))).
Proof.
  split.
  - destruct (post_content_validation Sample.isValidObjectId
                Sample.registered (Some Sample.bob) Sample.post2 Sample.post1
                {| body_content := Some "" |}) as [Hempty _].
    destruct Hempty as [Hcreate _]; [by right | exact Hcreate].
  - destruct (post_content_validation Sample.isValidObjectId
                Sample.registered (Some Sample.bob) Sample.post2 Sample.post1
                (Sample.contentBody "hi")) as [_ Hgiven].
    destruct (Hgiven "hi" Sample.bob) as [_ Hupdate];
      [reflexivity | discriminate | reflexivity |].
    apply Hupdate; [reflexivity | vm_compute; reflexivity | reflexivity].
Defined.

Lemma deleteComment_by_comment_author_only_witness :
  posts_deleteComment Sample.isValidObjectId Sample.annCommented
    (Some Sample.bob) Sample.post1 Sample.comment1
  = (respond 403 (JMessage "Not authorized to delete this comment"),
     Sample.annCommented).
Proof.
  destruct (deleteComment_by_comment_author_only Sample.isValidObjectId
              Sample.annCommented Sample.bob Sample.post1 Sample.comment1)
    as [_ Hfound]; [reflexivity | reflexivity |].
  destruct (Hfound (Sample.bobsPost [] [Sample.annsComment])) as [_ Hat];
    [vm_compute; reflexivity |].
  destruct (Hat 0 Sample.annsComment) as [Hother _]; [reflexivity |].
  apply Hother. discriminate.
Defined.

(** C9, counterexample: Ann updates her own note with non-empty title and
    content, [isPinned] true and no tags, the title being 201 characters
    long; the answer is the 500 of the [catch] branch and the note keeps
    [isPinned] false and its tag. *)
Lemma long_title_update_stores_nothing :
  Validator.notEmpty (nb_title Sample.pinWithLongTitle) = true
  ∧ Validator.notEmpty (nb_content Sample.pinWithLongTitle) = true
  ∧ notes Sample.annNote !! Sample.note1 = Some Sample.annsNote
  ∧ notes_update Sample.isValidObjectId Sample.annNote (Some Sample.ann)
      Sample.note1 Sample.pinWithLongTitle
    = (serverError, Sample.annNote)
  ∧ isPinned Sample.annsNote = false
  ∧ tags Sample.annsNote = ["todo"].
Proof. vm_compute. by repeat split. Qed.

Lemma note_update_fields_witness :
  ∃ note',
    notes_update Sample.isValidObjectId Sample.annNote (Some Sample.ann)
      Sample.note1 Sample.pinOnly
    = (respond 200 (JNote Sample.note1 note'),
       set_notes Sample.annNote
         (<[Sample.note1 := note']> (notes Sample.annNote)))
    ∧ isPinned note' = true ∧ tags note' = [].
Proof.
  destruct (note_update_fields Sample.isValidObjectId Sample.annNote
              Sample.ann Sample.note1 Sample.annsNote Sample.pinOnly
              "list" "eggs")
    as (note' & Hrun & _ & _ & _ & _ & Hpin & Htags & _).
  - reflexivity.
  - vm_compute. reflexivity.
  - reflexivity.
  - reflexivity.
  - discriminate.
  - simpl. lia.
  - reflexivity.
  - discriminate.
  - simpl. lia.
  - simpl. apply Forall_nil_2.
  - exists note'. split; [exact Hrun|]. split; [by apply Hpin | by apply Htags].
Defined.

(** * Further properties of the routes *)

(** ** Lookups by predicate *)

Lemma findOne_None (P : User → Prop) `{∀ u, Decision (P u)}
    (m : gmap string User) :
  findOne P m = None ↔ ∀ k u, m !! k = Some u → ¬ P u.
Proof.
  unfold findOne. rewrite head_None. split.
  - intros Hnil k u Hk HP.
    apply (filter_nil_not_elem_of _ _ (k, u) Hnil); [done|].
    by apply elem_of_map_to_list.
  - intros Hall. destruct (filter _ _) as [|[k u] l] eqn:E; [done|].
    assert (Hin : (k, u) ∈ filter (λ kv : string * User, P kv.2)
                    (map_to_list m)) by (rewrite E; left).
    apply list_elem_of_filter in Hin as [HP Hin].
    apply elem_of_map_to_list in Hin. by destruct (Hall k u Hin).
Qed.

Lemma findOne_Some (P : User → Prop) `{∀ u, Decision (P u)}
    (m : gmap string User) k u :
  findOne P m = Some (k, u) → m !! k = Some u ∧ P u.
Proof.
  unfold findOne. intros Hhead. apply head_Some_elem_of in Hhead.
  apply list_elem_of_filter in Hhead as [HP Hin].
  by apply elem_of_map_to_list in Hin.
Qed.

Lemma findOne_unique (P : User → Prop) `{∀ u, Decision (P u)}
    (m : gmap string User) k u :
  m !! k = Some u → P u →
  (∀ k' u', m !! k' = Some u' → P u' → k' = k) →
  findOne P m = Some (k, u).
Proof.
  intros Hk HP Huniq.
  destruct (findOne P m) as [[k' u']|] eqn:E.
  - apply findOne_Some in E as [Hk' HP'].
    assert (k' = k) as -> by by eapply Huniq. congruence.
  - rewrite findOne_None in E. by destruct (E k u Hk).
Qed.

(** ** Failed requests *)

Section Failures.

Variable isValidObjectId : string → bool.
Variable castObjectId : string → ObjectId.
Variable isEmail : string → bool.
Variable hashPassword : string → string.
Variable comparePassword : string → string → bool.
Variable generateToken : ObjectId → string.

(** X1: whatever the route, a request answered with a status of 400 or more
    (validation failure, 401, 403, 404 or the 500 of a [catch] branch) leaves
    all three collections exactly as they were, the store accepting every
    write that passes the schema. *)
Theorem failed_request_changes_nothing db r :
  400 ≤ status (handle isValidObjectId castObjectId isEmail hashPassword
                  comparePassword generateToken db r).1 →
  (handle isValidObjectId castObjectId isEmail hashPassword comparePassword
     generateToken db r).2 = db.
Proof.
  destruct r; simpl;
    unfold auth_register, users_follow, users_profile, posts_create,
      posts_update, posts_delete, posts_like, posts_comment,
      posts_deleteComment, notes_create, notes_update, notes_delete;
    repeat case_match; simpl; intros Hst; try done; lia.
Qed.

End Failures.

(** ** More on the follow route *)

Lemma set_lists_same (u : User) :
  set_followers (set_following u (following u)) (followers u) = u.
Proof. by destruct u. Qed.

(** The users collection after the two saves of a toggle, record by
    record. *)
Lemma follow_written_Some (m : gmap string User) uid c f g a ua :
  m !! a = Some ua →
  alter (λ u, set_followers u g) c (alter (λ u, set_following u f) uid m)
    !! a
  = Some (set_followers
            (set_following ua (if decide (a = uid) then f else following ua))
            (if decide (a = c) then g else followers ua)).
Proof.
  intros Ha.
  destruct (decide (a = c)) as [Hc|Hc], (decide (a = uid)) as [Hu|Hu];
    subst.
  - rewrite lookup_alter_eq, lookup_alter_eq, Ha. done.
  - rewrite lookup_alter_eq, lookup_alter_ne, Ha by done. by destruct ua.
  - rewrite lookup_alter_ne, lookup_alter_eq, Ha by done. by destruct ua.
  - rewrite !lookup_alter_ne, Ha by done. by destruct ua.
Qed.

Lemma follow_written_inv (m : gmap string User) uid c f g a ua' :
  alter (λ u, set_followers u g) c (alter (λ u, set_following u f) uid m)
    !! a = Some ua' →
  ∃ ua, m !! a = Some ua
        ∧ ua' = set_followers
                  (set_following ua
                     (if decide (a = uid) then f else following ua))
                  (if decide (a = c) then g else followers ua).
Proof.
  intros Ha'. destruct (m !! a) as [ua|] eqn:Ha.
  - exists ua. split; [done|].
    rewrite (follow_written_Some m uid c f g a ua Ha) in Ha'. congruence.
  - assert (alter (λ u, set_followers u g) c
              (alter (λ u, set_following u f) uid m) !! a = None) as Hnone.
    { by rewrite !lookup_alter_None. }
    congruence.
Qed.

Section FollowMore.

Variable isValidObjectId : string → bool.
Variable castObjectId : string → ObjectId.

(** X2: the self-follow guard compares the id as it was sent.  For a
    well-formed id that casts to the requesting user: when that user does
    not exist the answer is 404; when the id is spelled as the user's own
    id the answer is 400 "You cannot follow yourself" and nothing is
    written; when it is spelled otherwise (and is not among the stored
    [following]) the request is accepted, answered "Followed successfully",
    and the user is added to their own [following] and [followers]. *)
Theorem follow_self_guard_compares_spelling db uid id :
  id ≠ "" → isValidObjectId id = true → castObjectId id = uid →
  (users db !! uid = None →
     users_follow isValidObjectId castObjectId db (Some uid) id
     = (respond 404 (JMessage "User not found"), db))
  ∧ (∀ u, users db !! uid = Some u → id = uid →
       users_follow isValidObjectId castObjectId db (Some uid) id
       = (respond 400 (JMessage "You cannot follow yourself"), db))
  ∧ (∀ u, users db !! uid = Some u → id ≠ uid → id ∉ following u →
       users_follow isValidObjectId castObjectId db (Some uid) id
       = (respond 200
            (JFollow "Followed successfully" true (S (length (followers u)))),
          set_users db
            (<[uid := set_followers (set_following u (following u ++ [uid]))
                        (followers u ++ [uid])]> (users db)))).
Proof.
  intros Hne Hid Hcast. apply String.eqb_neq in Hne.
  split; [|split].
  - intros Hu. unfold users_follow. by rewrite Hne, Hid, Hcast, Hu.
  - intros u Hu ->. unfold users_follow.
    by rewrite Hne, Hid, Hcast, Hu, String.eqb_refl.
  - intros u Hu Hself Hout. unfold users_follow.
    apply String.eqb_neq in Hself. apply includes_false in Hout.
    rewrite Hne, Hid, Hcast, Hu, Hself, Hout. simpl. unfold Js.push.
    rewrite length_app, Nat.add_1_r. do 2 f_equal.
    apply map_eq. intros a.
    destruct (decide (a = uid)) as [->|Ha].
    + by rewrite lookup_alter_eq, lookup_alter_eq, lookup_insert_eq, Hu.
    + by rewrite !lookup_alter_ne, lookup_insert_ne.
Qed.

(** X3: the answer of a successful toggle describes the stored state, the
    stored [following] of the actor holding ids as the cast gives them:
    [isFollowing] is true exactly when the target is now in the actor's
    stored [following], and exactly when the actor is now in the target's
    stored [followers]; [followersCount] is the length of the target's
    stored [followers]; the message says "Followed" or "Unfollowed"
    accordingly. *)
Theorem follow_response_reports_state db uid id cur tgt :
  id ≠ "" → isValidObjectId id = true → id ≠ uid →
  users db !! uid = Some cur → users db !! castObjectId id = Some tgt →
  (∀ x, x ∈ following cur → castObjectId x = x) →
  ∃ (flag : bool) db' cur' tgt',
    users_follow isValidObjectId castObjectId db (Some uid) id
    = (respond 200
         (JFollow (if flag then "Followed successfully"
                   else "Unfollowed successfully")
            flag (length (followers tgt'))),
       db')
    ∧ users db' !! uid = Some cur'
    ∧ users db' !! castObjectId id = Some tgt'
    ∧ (flag = true ↔ castObjectId id ∈ following cur')
    ∧ (flag = true ↔ uid ∈ followers tgt').
Proof.
  intros Hne Hid Hself Hu Ht Hcanon.
  destruct (users_follow_run isValidObjectId castObjectId db uid id cur tgt
              Hne Hid Hself Hu Ht) as (f & g & Hrun & Hun & Hfo).
  exists (negb (Js.includes id (following cur))),
    (set_users db
       (alter (λ u, set_followers u g) (castObjectId id)
          (alter (λ u, set_following u f) uid (users db)))),
    (set_followers (set_following cur f)
       (if decide (uid = castObjectId id) then g else followers cur)),
    (set_followers
       (set_following tgt
          (if decide (castObjectId id = uid) then f else following tgt)) g).
  split; [|split; [|split]].
  - rewrite Hrun. simpl. by destruct (Js.includes id (following cur)).
  - simpl. rewrite (follow_written_Some _ uid (castObjectId id) f g uid cur Hu).
    by rewrite decide_True.
  - simpl. rewrite (follow_written_Some _ uid (castObjectId id) f g
                      (castObjectId id) tgt Ht).
    by rewrite (decide_True (P := castObjectId id = castObjectId id)).
  - simpl.
    destruct (Js.includes id (following cur)) eqn:E; simpl.
    + apply includes_true in E. destruct (Hun E) as [-> ->].
      rewrite (Hcanon id E), !list_elem_of_filter. intuition congruence.
    + apply includes_false in E. destruct (Hfo E) as [-> ->].
      rewrite !elem_of_app, !list_elem_of_singleton. intuition congruence.
Qed.

(** X4: a successful toggle writes nothing but [following] and [followers]
    lists: posts, notes and every other user are untouched, and both
    records keep their username, email, password hash, bio and avatar;
    when the target is another user than the actor, the actor keeps its
    [followers] and the target its [following]. *)
Theorem follow_toggle_frame db uid id cur tgt :
  id ≠ "" → isValidObjectId id = true → id ≠ uid →
  users db !! uid = Some cur → users db !! castObjectId id = Some tgt →
  ∃ cur' tgt',
    let db' := (users_follow isValidObjectId castObjectId db (Some uid)
                  id).2 in
    users db' !! uid = Some cur'
    ∧ users db' !! castObjectId id = Some tgt'
    ∧ posts db' = posts db ∧ notes db' = notes db
    ∧ (∀ k, k ≠ uid → k ≠ castObjectId id →
         users db' !! k = users db !! k)
    ∧ set_followers (set_following cur' (following cur)) (followers cur)
      = cur
    ∧ set_followers (set_following tgt' (following tgt)) (followers tgt)
      = tgt
    ∧ (castObjectId id ≠ uid →
         set_following cur' (following cur) = cur
         ∧ set_followers tgt' (followers tgt) = tgt).
Proof.
  intros Hne Hid Hself Hu Ht.
  destruct (users_follow_run isValidObjectId castObjectId db uid id cur tgt
              Hne Hid Hself Hu Ht) as (f & g & Hrun & _ & _).
  eexists _, _. rewrite Hrun. simpl.
  split; [apply follow_written_Some, Hu|].
  split; [apply follow_written_Some, Ht|].
  split; [done|]. split; [done|].
  split. { intros k Hk1 Hk2. by rewrite !lookup_alter_ne. }
  split; [by destruct cur|]. split; [by destruct tgt|].
  intros Hother. rewrite decide_True by done.
  rewrite (decide_False (P := uid = castObjectId id)) by done.
  rewrite (decide_False (P := castObjectId id = uid)) by done.
  rewrite decide_True by done. by destruct cur, tgt.
Qed.

(** X5: following opens the like route and unfollowing closes it: after a
    successful toggle by [uid] on the author of a post, the stored
    [following] of [uid] holding ids as the cast gives them, a like by
    [uid] on that post is accepted when the toggle answered [isFollowing]
    true and refused with 403 when it answered false. *)
Theorem follow_then_like db uid id cur tgt pid post :
  id ≠ "" → isValidObjectId id = true → id ≠ uid →
  users db !! uid = Some cur → users db !! castObjectId id = Some tgt →
  (∀ x, x ∈ following cur → castObjectId x = x) →
  isValidObjectId pid = true → posts db !! pid = Some post →
  author post = castObjectId id →
  ∃ m (flag : bool) n db',
    users_follow isValidObjectId castObjectId db (Some uid) id
    = (respond 200 (JFollow m flag n), db')
    ∧ status (posts_like isValidObjectId db' (Some uid) pid).1
      = if flag then 200 else 403.
Proof.
  intros Hne Hid Hself Hu Ht Hcanon Hpid Hp Hauth.
  destruct (users_follow_run isValidObjectId castObjectId db uid id cur tgt
              Hne Hid Hself Hu Ht) as (f & g & Hrun & Hun & Hfo).
  eexists _, _, _, _. split; [exact Hrun|].
  unfold posts_like.
  erewrite (interactionGate_found isValidObjectId _ uid pid post); try done;
    [|simpl; apply follow_written_Some, Hu
     |simpl; rewrite Hauth; apply follow_written_Some, Ht].
  unfold isFollowingOrFollower. simpl.
  rewrite !decide_True by done. rewrite Hauth.
  destruct (Js.includes id (following cur)) eqn:E; simpl.
  - apply includes_true in E. destruct (Hun E) as [-> ->].
    rewrite (Hcanon id E).
    rewrite (proj2 (includes_false id _)), (proj2 (includes_false uid _)).
    + apply String.eqb_neq in Hself. by rewrite Hself.
    + rewrite list_elem_of_filter. tauto.
    + rewrite list_elem_of_filter. tauto.
  - apply includes_false in E. destruct (Hfo E) as [-> ->].
    rewrite (proj2 (includes_true (castObjectId id) _)); [done|].
    rewrite elem_of_app, list_elem_of_singleton. tauto.
Qed.

End FollowMore.

(** ** More on the post routes *)

Lemma commentIndex_push (cs : list Comment) (c : Comment) :
  comment_id c ∉ comment_id <$> cs →
  commentIndex (comment_id c) (Js.push c cs) = Some (length cs).
Proof.
  intros Hfresh. unfold commentIndex, Js.findIndex, Js.push.
  assert (Hnone : list_find (λ c', comment_id c' = comment_id c) cs = None).
  { apply list_find_None, Forall_forall. intros c' Hin Heq.
    apply Hfresh. rewrite <- Heq. by apply list_elem_of_fmap_2. }
  rewrite list_find_app_r by done. simpl.
  by rewrite decide_True.
Qed.

Section PostsMore.

Variable isValidObjectId : string → bool.

Lemma interactionGate_inr_user db reqUser id m uid post :
  interactionGate isValidObjectId db reqUser id m = inr (uid, post) →
  reqUser = Some uid ∧ isValidObjectId id = true
  ∧ posts db !! id = Some post.
Proof.
  unfold interactionGate. intros H.
  destruct (isValidObjectId id) eqn:E; [|done]. simpl in H.
  repeat case_match; simplify_eq/=. done.
Qed.

(** X6: only its author can change or remove a post: for an existing post,
    an update (whatever non-empty content it carries) or a delete by anyone
    else, or by a request without principal, is answered 403 "Not
    authorized" and writes nothing; a delete by the author answers 200 and
    removes the post. *)
Theorem post_update_delete_author_only db reqUser id post b c :
  isValidObjectId id = true → posts db !! id = Some post →
  body_content b = Some c → c ≠ "" →
  (reqUser ≠ Some (author post) →
     posts_update isValidObjectId db reqUser id b
     = (respond 403 (JMessage "Not authorized"), db)
     ∧ posts_delete isValidObjectId db reqUser id
       = (respond 403 (JMessage "Not authorized"), db))
  ∧ (reqUser = Some (author post) →
       posts_delete isValidObjectId db reqUser id
       = (respond 200 (JMessage "Post deleted successfully"),
          set_posts db (delete id (posts db)))).
Proof.
  intros Hid Hp Hb Hc. unfold posts_update, posts_delete.
  rewrite (contentErrors_given _ b c Hb Hc), Hid, Hp. simpl. split.
  - intros Hother.
    assert (notOwner reqUser post = true) as ->; [|done].
    destruct reqUser as [uid|]; [|done]. simpl.
    apply negb_true_iff, String.eqb_neq. congruence.
  - intros ->. simpl. by rewrite String.eqb_refl.
Qed.

(** X7: after its author deleted a post, the post is gone and every other
    post is as before; a second delete, an update, a like, a comment and a
    comment deletion on its id are all answered 404 "Post not found". *)
Theorem post_delete_then_not_found db id post u b c newId cid :
  isValidObjectId id = true → posts db !! id = Some post →
  isValidObjectId cid = true → body_content b = Some c → c ≠ "" →
  let db' := (posts_delete isValidObjectId db (Some (author post)) id).2 in
  let gone := respond 404 (JMessage "Post not found") in
  posts db' !! id = None
  ∧ (∀ k, k ≠ id → posts db' !! k = posts db !! k)
  ∧ users db' = users db ∧ notes db' = notes db
  ∧ posts_delete isValidObjectId db' (Some u) id = (gone, db')
  ∧ posts_update isValidObjectId db' (Some u) id b = (gone, db')
  ∧ posts_like isValidObjectId db' (Some u) id = (gone, db')
  ∧ posts_comment isValidObjectId db' (Some u) newId id b = (gone, db')
  ∧ posts_deleteComment isValidObjectId db' (Some u) id cid = (gone, db').
Proof.
  intros Hid Hp Hcid Hb Hc db' gone.
  assert (Hdb' : db' = set_posts db (delete id (posts db))).
  { subst db'. unfold posts_delete. rewrite Hid, Hp. simpl.
    by rewrite String.eqb_refl. }
  assert (Hgone : posts db' !! id = None).
  { rewrite Hdb'. apply lookup_delete_eq. }
  split; [done|].
  split. { intros k Hk. rewrite Hdb'. simpl. by rewrite lookup_delete_ne. }
  split; [by rewrite Hdb'|]. split; [by rewrite Hdb'|].
  unfold posts_delete, posts_update, posts_like, posts_comment,
    posts_deleteComment, interactionGate.
  rewrite !(contentErrors_given _ b c Hb Hc), Hid, Hcid, Hgone. done.
Qed.

(** X8: a comment accepted by the route is appended after the existing
    comments, with the principal as its author and the content as sent; the
    post's author, content and likes, every other post, the users and the
    notes are untouched. *)
Theorem comment_appends db uid newId id post cur auth b c :
  isValidObjectId id = true → posts db !! id = Some post →
  users db !! uid = Some cur → users db !! author post = Some auth →
  isFollowingOrFollower cur auth (author post) uid = true →
  body_content b = Some c → c ≠ "" →
  ∃ post',
    posts_comment isValidObjectId db (Some uid) newId id b
    = (respond 200 (JPost id post'),
       set_posts db (<[id := post']> (posts db)))
    ∧ comments post'
      = comments post
        ++ [ {| comment_id := newId; comment_user := uid;
                comment_content := c |} ]
    ∧ author post' = author post ∧ content post' = content post
    ∧ likes post' = likes post.
Proof.
  intros Hid Hp Hu Ha Hcon Hb Hc. unfold posts_comment.
  rewrite (contentErrors_given _ b c Hb Hc). simpl.
  rewrite (interactionGate_found _ db uid id post cur auth), Hcon by done.
  eexists. split; [reflexivity|]. simpl. by rewrite Hb.
Qed.

(** X9: adding a comment under an id no comment of the post bears and then
    deleting that comment as the same user gives back the database of
    before: the post has its original comments, in their order. *)
Theorem comment_then_delete_restores db uid newId id post cur auth b c :
  isValidObjectId id = true → isValidObjectId newId = true →
  posts db !! id = Some post →
  users db !! uid = Some cur → users db !! author post = Some auth →
  isFollowingOrFollower cur auth (author post) uid = true →
  body_content b = Some c → c ≠ "" →
  newId ∉ comment_id <$> comments post →
  ∃ post1 db1,
    posts_comment isValidObjectId db (Some uid) newId id b
    = (respond 200 (JPost id post1), db1)
    ∧ posts_deleteComment isValidObjectId db1 (Some uid) id newId
      = (respond 200 (JMessage "Comment deleted"), db).
Proof.
  intros Hid Hnew Hp Hu Ha Hcon Hb Hc Hfresh.
  set (cmt := {| comment_id := newId; comment_user := uid;
                 comment_content := c |}).
  set (post1 := set_comments post (Js.push cmt (comments post))).
  exists post1, (set_posts db (<[id := post1]> (posts db))).
  split.
  { unfold posts_comment. rewrite (contentErrors_given _ b c Hb Hc). simpl.
    rewrite (interactionGate_found _ db uid id post cur auth), Hcon by done.
    by rewrite Hb. }
  pose proof (commentIndex_push (comments post) cmt Hfresh) as Hidx.
  pose proof (splice1_push cmt (comments post)) as Hsp.
  assert (Hat : Js.push cmt (comments post) !! length (comments post)
                = Some cmt).
  { unfold Js.push. rewrite lookup_app_r by lia. by rewrite Nat.sub_diag. }
  assert (Hback : set_comments post1 (comments post) = post)
    by by destruct post.
  unfold posts_deleteComment. rewrite Hid, Hnew.
  cbn [negb orb posts set_posts]. rewrite lookup_insert_eq.
  change (comments post1) with (Js.push cmt (comments post)).
  change newId with (comment_id cmt) at 1.
  rewrite Hidx, Hat.
  change (comment_user cmt) with uid. rewrite String.eqb_refl.
  cbn [negb]. rewrite Hsp, Hback. f_equal.
  cbn [posts set_posts].
  rewrite insert_insert_eq, (insert_id (posts db) id post Hp).
  by destruct db.
Qed.

End PostsMore.

(** ** What a route never touches *)

Section Separation.

Variable isValidObjectId : string → bool.
Variable castObjectId : string → ObjectId.
Variable isEmail : string → bool.
Variable hashPassword : string → string.
Variable comparePassword : string → string → bool.
Variable generateToken : ObjectId → string.

Lemma handle_separation db r :
  let db' := (handle isValidObjectId castObjectId isEmail hashPassword
                comparePassword generateToken db r).2 in
  match r with
  | PostAuthLogin _ => db' = db
  | PostAuthRegister _ _ | PostUsersFollow _ _ | PutUsersProfile _ _ =>
      posts db' = posts db ∧ notes db' = notes db
  | PostPosts _ _ _ | PutPosts _ _ _ | DeletePosts _ _ | PostPostsLike _ _
  | PostPostsComment _ _ _ _ | DeletePostsComment _ _ _ =>
      users db' = users db ∧ notes db' = notes db
  | PostNotes _ _ _ | PutNotes _ _ _ | DeleteNotes _ _ =>
      users db' = users db ∧ posts db' = posts db
  end.
Proof.
  destruct r; simpl;
    unfold auth_register, users_follow, users_profile, posts_create,
      posts_update, posts_delete, posts_like, posts_comment,
      posts_deleteComment, notes_create, notes_update, notes_delete;
    repeat case_match; simpl; done.
Qed.

(** X10: each group of routes writes its own collection only: the auth and
    user routes leave posts and notes alone, the post routes leave users and
    notes alone (deleting a post deletes no user), the note routes leave
    users and posts alone, and login writes nothing. *)
Theorem routes_write_their_own_collection db r :
  let db' := (handle isValidObjectId castObjectId isEmail hashPassword
                comparePassword generateToken db r).2 in
  match r with
  | PostAuthLogin _ => db' = db
  | PostAuthRegister _ _ | PostUsersFollow _ _ | PutUsersProfile _ _ =>
      posts db' = posts db ∧ notes db' = notes db
  | PostPosts _ _ _ | PutPosts _ _ _ | DeletePosts _ _ | PostPostsLike _ _
  | PostPostsComment _ _ _ _ | DeletePostsComment _ _ _ =>
      users db' = users db ∧ notes db' = notes db
  | PostNotes _ _ _ | PutNotes _ _ _ | DeleteNotes _ _ =>
      users db' = users db ∧ posts db' = posts db
  end.
Proof.
  destruct r; simpl;
    unfold auth_register, users_follow, users_profile, posts_create,
      posts_update, posts_delete, posts_like, posts_comment,
      posts_deleteComment, notes_create, notes_update, notes_delete;
    repeat case_match; simpl; done.
Qed.

(** X11: no request changes the author of a stored post: whatever the
    route and its outcome, a post that is stored before and after the
    request has the same author. *)
Theorem post_author_never_changes db r id p p' :
  posts db !! id = Some p →
  posts (handle isValidObjectId castObjectId isEmail hashPassword
           comparePassword generateToken db r).2 !! id = Some p' →
  author p' = author p.
Proof.
  intros Hp.
  pose proof (handle_separation db r) as Hsep.
  destruct r; simpl in *;
    [ destruct Hsep as [-> _]; congruence
    | congruence
    | destruct Hsep as [-> _]; congruence
    | destruct Hsep as [-> _]; congruence
    | clear Hsep | clear Hsep | clear Hsep | clear Hsep | clear Hsep
    | clear Hsep
    | destruct Hsep as [_ ->]; congruence
    | destruct Hsep as [_ ->]; congruence
    | destruct Hsep as [_ ->]; congruence ].
  - unfold posts_create. repeat case_match; simpl; try congruence.
    rewrite lookup_insert_Some. intros [[-> <-]|[_ ?]]; congruence.
  - unfold posts_update. repeat case_match; simpl; try congruence.
    rewrite lookup_insert_Some. intros [[-> <-]|[_ ?]]; simpl; congruence.
  - unfold posts_delete. repeat case_match; simpl; try congruence.
    rewrite lookup_delete_Some. intros [_ ?]. congruence.
  - unfold posts_like.
    destruct (interactionGate _ _ _ _ _) as [?|[uid post]] eqn:E; simpl;
      [congruence|].
    apply interactionGate_inr in E.
    rewrite lookup_insert_Some. intros [[-> <-]|[_ ?]]; simpl; congruence.
  - unfold posts_comment. destruct (negb _); simpl; [congruence|].
    destruct (interactionGate _ _ _ _ _) as [?|[uid post]] eqn:E; simpl;
      [congruence|].
    apply interactionGate_inr in E.
    rewrite lookup_insert_Some. intros [[-> <-]|[_ ?]]; simpl; congruence.
  - unfold posts_deleteComment. repeat case_match; simpl; try congruence.
    rewrite lookup_insert_Some. intros [[-> <-]|[_ ?]]; simpl; congruence.
Qed.

(** X12: no request changes the owner of a stored note: a note that is
    stored before and after a request belongs to the same user. *)
Theorem note_owner_never_changes db r id n n' :
  notes db !! id = Some n →
  notes (handle isValidObjectId castObjectId isEmail hashPassword
           comparePassword generateToken db r).2 !! id = Some n' →
  note_user n' = note_user n.
Proof.
  intros Hn.
  pose proof (handle_separation db r) as Hsep.
  destruct r; simpl in *;
    [ destruct Hsep as [_ ->]; congruence
    | congruence
    | destruct Hsep as [_ ->]; congruence
    | destruct Hsep as [_ ->]; congruence
    | destruct Hsep as [_ ->]; congruence
    | destruct Hsep as [_ ->]; congruence
    | destruct Hsep as [_ ->]; congruence
    | destruct Hsep as [_ ->]; congruence
    | destruct Hsep as [_ ->]; congruence
    | destruct Hsep as [_ ->]; congruence
    | clear Hsep | clear Hsep | clear Hsep ].
  - unfold notes_create. repeat case_match; simpl; try congruence.
    rewrite lookup_insert_Some. intros [[-> <-]|[_ ?]]; congruence.
  - unfold notes_update. repeat case_match; simpl; try congruence.
    rewrite lookup_insert_Some. intros [[-> <-]|[_ ?]]; simpl; congruence.
  - unfold notes_delete. repeat case_match; simpl; try congruence.
    rewrite lookup_delete_Some. intros [_ ?]. congruence.
Qed.

End Separation.

(** ** More on registration and login *)

Section AuthMore.

Variable isEmail : string → bool.
Variable hashPassword : string → string.
Variable comparePassword : string → string → bool.
Variable generateToken : ObjectId → string.

Lemma isLength_Some n s :
  n ≤ String.length s → Validator.isLength n (Some s) = true.
Proof. intros H. unfold Validator.isLength. by apply Nat.leb_le. Qed.

Lemma registerErrors_valid b uname mail pass :
  reg_username b = Some uname → 3 ≤ String.length uname →
  reg_email b = Some mail → isEmail mail = true →
  reg_password b = Some pass → 6 ≤ String.length pass →
  registerErrors isEmail b = [].
Proof.
  intros Hu Hul He Hem Hp Hpl. unfold registerErrors.
  rewrite Hu, He, Hp, !isLength_Some by done.
  unfold isEmailField. by rewrite Hem.
Qed.

(** X13: a valid registration under a username or an email that a stored
    user already has is answered 400 "User already exists" and creates
    nothing. *)
Theorem register_duplicate_rejected db newId b uname mail pass k u :
  reg_username b = Some uname → 3 ≤ String.length uname →
  reg_email b = Some mail → isEmail mail = true →
  reg_password b = Some pass → 6 ≤ String.length pass →
  users db !! k = Some u → email u = mail ∨ username u = uname →
  auth_register isEmail hashPassword generateToken db newId b
  = (respond 400 (JMessage "User already exists"), db).
Proof.
  intros Hu Hul He Hem Hp Hpl Hk Hdup. unfold auth_register.
  rewrite (registerErrors_valid b uname mail pass) by done. simpl.
  rewrite Hu, He. simpl.
  destruct (findOne _ (users db)) as [existingUser|] eqn:E; [done|].
  rewrite findOne_None in E. by destruct (E k u Hk).
Qed.

Lemma auth_login_found db mail pass id u :
  isEmail mail = true →
  findOne (λ u, email u = mail) (users db) = Some (id, u) →
  auth_login isEmail comparePassword generateToken db
    {| login_email := Some mail; login_password := Some pass |}
  = if comparePassword pass (password u)
    then respond 200 (JAuth (generateToken id) (userJson id u))
    else respond 400 (JMessage "Invalid credentials").
Proof.
  intros Hem Hfound. unfold auth_login, loginErrors. simpl.
  rewrite Hem. simpl. rewrite Hfound.
  by destruct (comparePassword pass (password u)).
Qed.

(** X14: registration and login round trip: a valid registration under a
    username and an email no stored user has, with a fresh id, answers 201,
    stores the password hashed and no follow edge, and, the hash verifying
    the password it was made from, a login with the same email and password
    then answers 200 with a token for the new user, while a login with a
    password that does not verify answers 400. *)
Theorem register_then_login db newId b uname mail pass :
  reg_username b = Some uname → 3 ≤ String.length uname →
  reg_email b = Some mail → isEmail mail = true →
  reg_password b = Some pass → 6 ≤ String.length pass →
  (∀ k u, users db !! k = Some u → email u ≠ mail ∧ username u ≠ uname) →
  users db !! newId = None →
  comparePassword pass (hashPassword pass) = true →
  let user := {| username := uname; email := mail;
                 password := hashPassword pass; bio := ""; avatar := "";
                 followers := []; following := [] |} in
  let db' := set_users db (<[newId := user]> (users db)) in
  let granted := respond 200 (JAuth (generateToken newId)
                                (userJson newId user)) in
  auth_register isEmail hashPassword generateToken db newId b
  = (respond 201 (JAuth (generateToken newId) (userJson newId user)), db')
  ∧ auth_login isEmail comparePassword generateToken db'
      {| login_email := Some mail; login_password := Some pass |}
    = granted
  ∧ (∀ other, comparePassword other (hashPassword pass) = false →
       auth_login isEmail comparePassword generateToken db'
         {| login_email := Some mail; login_password := Some other |}
       = respond 400 (JMessage "Invalid credentials")).
Proof.
  intros Hu Hul He Hem Hp Hpl Hnew Hfresh Hverify user db' granted.
  assert (Hfound : findOne (λ u, email u = mail) (users db')
                   = Some (newId, user)).
  { apply findOne_unique; [apply lookup_insert_eq | done |].
    intros k' u' Hk' Hmail. simpl in Hk'.
    apply lookup_insert_Some in Hk' as [[<- _]|[_ Hk']]; [done|].
    by destruct (Hnew k' u' Hk'). }
  split; [|split].
  - unfold auth_register.
    rewrite (registerErrors_valid b uname mail pass) by done. simpl.
    rewrite Hu, He, Hp. simpl.
    assert (findOne (λ u, email u = mail ∨ username u = uname) (users db)
            = None) as ->.
    { apply findOne_None. intros k u Hk [H|H]; by destruct (Hnew k u Hk). }
    by rewrite Hfresh.
  - rewrite (auth_login_found db' mail pass newId user Hem Hfound).
    cbn [password user]. by rewrite Hverify.
  - intros other Hwrong.
    rewrite (auth_login_found db' mail other newId user Hem Hfound).
    cbn [password user]. by rewrite Hwrong.
Qed.

End AuthMore.

(** ** The profile route *)

Lemma truthy_false v : Js.truthy v = false ↔ v = None ∨ v = Some "".
Proof.
  unfold Js.truthy. destruct v as [s|]; [|by intuition].
  rewrite negb_false_iff, String.eqb_eq. intuition congruence.
Qed.

Lemma truthy_true v : Js.truthy v = true ↔ ∃ s, v = Some s ∧ s ≠ "".
Proof.
  unfold Js.truthy. destruct v as [s|].
  - rewrite negb_true_iff, String.eqb_neq. split.
    + intros Hs. by exists s.
    + intros (s' & [= <-] & Hs). done.
  - split; [done|]. by intros (s & ? & _).
Qed.


(** ** More on the note routes *)

Lemma noteErrors_valid b t c :
  nb_title b = Some t → t ≠ "" → nb_content b = Some c → c ≠ "" →
  noteErrors b = [].
Proof.
  intros Ht Htne Hc Hcne. unfold noteErrors. rewrite Ht, Hc.
  by rewrite !notEmpty_Some.
Qed.

Section NotesMore.

Variable isValidObjectId : string → bool.

(** X16: creating a note with a non-empty title and content stores, under a
    fresh id and within the schema's limits, a note owned by the principal
    with the title and content sent, the tags sent or none, and [isPinned]
    as sent or false; when the new note breaks a limit of the schema (say a
    title of more than 200 characters) the answer is 500 and nothing is
    stored. *)
Theorem note_create_defaults db uid newId b t c :
  nb_title b = Some t → t ≠ "" → nb_content b = Some c → c ≠ "" →
  let note := {| note_user := uid; title := t; note_content := c;
                 tags := default [] (nb_tags b);
                 isPinned := default false (nb_isPinned b) |} in
  (noteValid note = true → notes db !! newId = None →
     notes_create db (Some uid) newId b
     = (respond 201 (JNote newId note),
        set_notes db (<[newId := note]> (notes db))))
  ∧ (noteValid note = false ∨ is_Some (notes db !! newId) →
       notes_create db (Some uid) newId b = (serverError, db))
  ∧ (200 < String.length t → noteValid note = false).
Proof.
  intros Ht Htne Hc Hcne note.
  assert (Hrun : notes_create db (Some uid) newId b
    = if negb (noteValid note) then (serverError, db)
      else match notes db !! newId with
           | Some _ => (serverError, db)
           | None => (respond 201 (JNote newId note),
                      set_notes db (<[newId := note]> (notes db)))
           end).
  { unfold notes_create. rewrite (noteErrors_valid b t c) by done.
    subst note. by rewrite Ht, Hc. }
  split; [|split].
  - intros Hv Hfresh. by rewrite Hrun, Hv, Hfresh.
  - intros [Hv|[n Hn]]; rewrite Hrun.
    + by rewrite Hv.
    + rewrite Hn. by destruct (negb _).
  - intros Hlong. unfold noteValid. subst note. cbn [title].
    apply Nat.leb_gt in Hlong. rewrite Hlong.
    by rewrite andb_false_r.
Qed.

(** X17: only its owner can change or remove a note: for an existing note,
    an update (with valid title and content) or a delete by another user is
    answered 403 "Not authorized" and writes nothing; a delete by the owner
    answers 200, removes the note and keeps every other note, and the same
    delete repeated answers 404. *)
Theorem note_update_delete_owner_only db uid id note b t c :
  isValidObjectId id = true → notes db !! id = Some note →
  nb_title b = Some t → t ≠ "" → nb_content b = Some c → c ≠ "" →
  (uid ≠ note_user note →
     notes_update isValidObjectId db (Some uid) id b
     = (respond 403 (JMessage "Not authorized"), db)
     ∧ notes_delete isValidObjectId db (Some uid) id
       = (respond 403 (JMessage "Not authorized"), db))
  ∧ (uid = note_user note →
       let db' := set_notes db (delete id (notes db)) in
       notes_delete isValidObjectId db (Some uid) id
       = (respond 200 (JMessage "Note deleted successfully"), db')
       ∧ notes db' !! id = None
       ∧ (∀ k, k ≠ id → notes db' !! k = notes db !! k)
       ∧ notes_delete isValidObjectId db' (Some uid) id
         = (respond 404 (JMessage "Note not found"), db')).
Proof.
  intros Hid Hn Ht Htne Hc Hcne. unfold notes_update, notes_delete.
  rewrite (noteErrors_valid b t c), Hid, Hn by done. simpl. split.
  - intros Hother. apply not_eq_sym, String.eqb_neq in Hother.
    by rewrite Hother.
  - intros ->. rewrite String.eqb_refl. simpl.
    split; [done|]. split; [apply lookup_delete_eq|].
    split. { intros k Hk. by rewrite lookup_delete_ne. }
    by rewrite lookup_delete_eq.
Qed.

End NotesMore.

(** ** More invariants of the reachable databases *)

Lemma storeInvariant_empty : storeInvariant emptyDb.
Proof.
  split; simpl.
  - intros a b ua ub H. by rewrite lookup_empty in H.
  - intros id n H. by rewrite lookup_empty in H.
Qed.

Lemma storeInvariant_ext db db' :
  users db' = users db → notes db' = notes db →
  storeInvariant db → storeInvariant db'.
Proof. intros Hu Hn [? ?]. split; by rewrite ?Hu, ?Hn. Qed.

Lemma storeInvariant_set_users db m :
  storeInvariant db → identitiesUnique m → storeInvariant (set_users db m).
Proof. intros [? ?] ?. by split. Qed.

Lemma storeInvariant_set_notes db m :
  storeInvariant db → notesValid m → storeInvariant (set_notes db m).
Proof. intros [? ?] ?. by split. Qed.

Lemma notesValid_insert (m : gmap string Note) id n :
  notesValid m → noteValid n = true → notesValid (<[id := n]> m).
Proof.
  intros Hm Hn k n' Hk.
  apply lookup_insert_Some in Hk as [[_ <-]|[_ Hk]]; [done|by eapply Hm].
Qed.

Lemma notesValid_delete (m : gmap string Note) id :
  notesValid m → notesValid (delete id m).
Proof.
  intros Hm k n Hk. apply lookup_delete_Some in Hk as [_ Hk]. by eapply Hm.
Qed.

Lemma register_store_inv isEmail hashPassword generateToken db newId b :
  storeInvariant db →
  storeInvariant (auth_register isEmail hashPassword generateToken db newId b).2.
Proof.
  intros Hinv. unfold auth_register.
  destruct (negb _); [done|].
  destruct (findOne _ (users db)) as [?|] eqn:Hfind; [done|].
  destruct (users db !! newId) eqn:Hnew; [done|]. simpl.
  rewrite findOne_None in Hfind.
  destruct Hinv as [Hid Hnotes].
  apply storeInvariant_set_users; [by split|].
  intros a c ua uc Ha Hc Hsame.
  apply lookup_insert_Some in Ha as [[<- <-]|[_ Ha]];
    apply lookup_insert_Some in Hc as [[<- <-]|[_ Hc]]; simpl in *.
  - done.
  - destruct (Hfind c uc Hc). destruct Hsame; [by right|by left].
  - destruct (Hfind a ua Ha). destruct Hsame; [by right|by left].
  - by eapply Hid.
Qed.

Lemma follow_store_inv isValidObjectId castObjectId db u id :
  storeInvariant db →
  storeInvariant (users_follow isValidObjectId castObjectId db u id).2.
Proof.
  intros Hinv.
  destruct (users_follow_cases isValidObjectId castObjectId db u id)
    as [->|(uid & cur & tgt & -> & Hne & Hid & Hself & Hu & Ht)]; [done|].
  destruct (users_follow_run isValidObjectId castObjectId db uid id cur tgt
              Hne Hid Hself Hu Ht) as (f & g & -> & _ & _). simpl.
  destruct Hinv as [Hids Hnotes].
  apply storeInvariant_set_users; [by split|].
  intros a c ua' uc' Ha Hc Hsame.
  apply follow_written_inv in Ha as (ua & Hua & ->).
  apply follow_written_inv in Hc as (uc & Huc & ->).
  by apply (Hids a c ua uc Hua Huc).
Qed.

Lemma profile_store_inv db u b :
  storeInvariant db → storeInvariant (users_profile db u b).2.
Proof.
  intros Hinv. unfold users_profile.
  destruct (_ && _); [done|].
  destruct u as [uid|]; [|done].
  destruct Hinv as [Hids Hnotes].
  set (taken := if Js.truthy (prof_username b) then _ else false).
  destruct taken eqn:Htaken; [done|]. simpl.
  assert (Hlook : ∀ a ua', alter (updateFields b) uid (users db) !! a = Some ua' →
            ∃ ua, users db !! a = Some ua
                  ∧ following ua' = following ua
                  ∧ followers ua' = followers ua
                  ∧ email ua' = email ua
                  ∧ (username ua' = username ua
                     ∨ a = uid ∧ Js.truthy (prof_username b) = true
                       ∧ username ua'
                         = Validator.toString (prof_username b))).
  { intros a ua' Ha.
    apply lookup_alter_Some in Ha as [[<- (ua & Hua & ->)]|[_ Ha]].
    - exists ua. do 4 (split; [done|]). simpl.
      destruct (Js.truthy (prof_username b)); [by right|by left].
    - exists ua'. by intuition. }
  assert (Hname : ∀ k v, users db !! k = Some v →
            Js.truthy (prof_username b) = true →
            username v = Validator.toString (prof_username b) →
            ∃ w, users db !! uid = Some w ∧ username w = username v).
  { intros k v Hk Htr Hv. subst taken. rewrite Htr in Htaken.
    destruct (findOne _ (users db)) as [[eid w]|] eqn:E.
    - apply negb_false_iff, String.eqb_eq in Htaken as ->.
      apply findOne_Some in E as [Hw Hwn]. exists w. split; [done|].
      congruence.
    - rewrite findOne_None in E. by destruct (E k v Hk). }
  apply storeInvariant_set_users; [by split|].
  intros a c ua' uc' Ha Hc Hsame.
  destruct (Hlook a ua' Ha) as (ua & Hua & _ & _ & He1 & Hn1).
  destruct (Hlook c uc' Hc) as (uc & Huc & _ & _ & He2 & Hn2).
  rewrite He1, He2 in Hsame.
  destruct Hsame as [Hsame|Hsame];
    [|apply (Hids a c ua uc Hua Huc); by right].
  destruct Hn1 as [Hn1|(-> & Htr1 & Hn1)];
    destruct Hn2 as [Hn2|(-> & Htr2 & Hn2)]; [| | |done].
  - apply (Hids a c ua uc Hua Huc). left. congruence.
  - destruct (Hname a ua Hua Htr2) as (w & Hw & Hwn); [congruence|].
    apply (Hids a uid ua w Hua Hw). left. congruence.
  - destruct (Hname c uc Huc Htr1) as (w & Hw & Hwn); [congruence|].
    apply (Hids uid c w uc Hw Huc). left. congruence.
Qed.

Lemma notes_create_store_inv db u newId b :
  storeInvariant db → storeInvariant (notes_create db u newId b).2.
Proof.
  intros Hinv. unfold notes_create.
  destruct (negb (Validator.isEmpty _)); [done|].
  destruct u as [uid|]; [|done].
  destruct (noteValid _) eqn:Hv; [|done]. simpl.
  destruct (notes db !! newId); [done|]. simpl.
  apply storeInvariant_set_notes; [done|].
  apply notesValid_insert; [apply Hinv|done].
Qed.

Lemma notes_update_store_inv isValidObjectId db u id b :
  storeInvariant db →
  storeInvariant (notes_update isValidObjectId db u id b).2.
Proof.
  intros Hinv. unfold notes_update.
  destruct (negb (Validator.isEmpty _)); [done|].
  destruct (negb (isValidObjectId id)); [done|].
  destruct (notes db !! id) as [note|]; [|done].
  destruct u as [uid|]; [|done].
  destruct (negb (String.eqb _ _)); [done|].
  destruct (noteValid _) eqn:Hv; [|done]. simpl.
  apply storeInvariant_set_notes; [done|].
  apply notesValid_insert; [apply Hinv|done].
Qed.

Lemma notes_delete_store_inv isValidObjectId db u id :
  storeInvariant db →
  storeInvariant (notes_delete isValidObjectId db u id).2.
Proof.
  intros Hinv. unfold notes_delete.
  repeat case_match; simpl; try done.
  apply storeInvariant_set_notes; [done|].
  apply notesValid_delete, Hinv.
Qed.

(** ** The follow graph of the reachable databases *)

Lemma graphInvariant_empty cast : graphInvariant cast ∅.
Proof.
  split.
  - intros a b ua ub H. by rewrite lookup_empty in H.
  - intros a ua x H. by rewrite lookup_empty in H.
  - intros a ua x H. by rewrite lookup_empty in H.
Qed.

Lemma register_graph_inv cast isEmail hashPassword generateToken db newId b :
  graphInvariant cast (users db) →
  graphInvariant cast
    (users (auth_register isEmail hashPassword generateToken db newId b).2).
Proof.
  intros Hinv. unfold auth_register.
  destruct (negb _); [done|].
  destruct (findOne _ (users db)) as [?|]; [done|].
  destruct (users db !! newId) eqn:Hnew; [done|]. simpl.
  destruct Hinv as [Hsym Hcl Hcast].
  assert (Hfresh : ∀ a ua, users db !! a = Some ua →
            (newId ∉ following ua) ∧ (newId ∉ followers ua)).
  { intros a ua Ha. split; intros Hin.
    - destruct (Hcl a ua newId Ha (or_introl Hin)) as [? ?]. congruence.
    - destruct (Hcl a ua newId Ha (or_intror Hin)) as [? ?]. congruence. }
  split.
  - intros a c ua uc Ha Hc.
    apply lookup_insert_Some in Ha as [[<- <-]|[Hna Ha]];
      apply lookup_insert_Some in Hc as [[<- <-]|[Hnc Hc]]; simpl.
    + done.
    + destruct (Hfresh c uc Hc) as [_ Hout].
      split; [by intros ?%elem_of_nil|done].
    + destruct (Hfresh a ua Ha) as [Hout _].
      split; [done|by intros ?%elem_of_nil].
    + by apply Hsym.
  - intros a ua x Ha Hx.
    apply lookup_insert_Some in Ha as [[<- <-]|[Hna Ha]]; simpl in Hx.
    + destruct Hx as [Hx|Hx]; by apply elem_of_nil in Hx.
    + destruct (Hcl a ua x Ha Hx) as [ux Hux].
      destruct (decide (newId = x)) as [->|Hne].
      * rewrite lookup_insert_eq. by eexists.
      * rewrite lookup_insert_ne by done. by eexists.
  - intros a ua x Ha Hx.
    apply lookup_insert_Some in Ha as [[<- <-]|[Hna Ha]]; simpl in Hx.
    + by apply elem_of_nil in Hx.
    + by eapply Hcast.
Qed.

Lemma profile_graph_inv cast db u b :
  graphInvariant cast (users db) →
  graphInvariant cast (users (users_profile db u b).2).
Proof.
  intros Hinv.
  destruct (users_profile_cases db u b) as [->|[uid ->]]; [done|]. simpl.
  destruct Hinv as [Hsym Hcl Hcast].
  assert (Hlook : ∀ a ua',
            alter (updateFields b) uid (users db) !! a = Some ua' →
            ∃ ua, users db !! a = Some ua
                  ∧ following ua' = following ua
                  ∧ followers ua' = followers ua).
  { intros a ua' Ha.
    apply lookup_alter_Some in Ha as [[<- (ua & Hua & ->)]|[_ Ha]].
    - by exists ua.
    - by exists ua'. }
  split.
  - intros a c ua' uc' Ha Hc.
    destruct (Hlook a ua' Ha) as (ua & Hua & -> & _).
    destruct (Hlook c uc' Hc) as (uc & Huc & _ & ->).
    by apply Hsym.
  - intros a ua' x Ha Hx.
    destruct (Hlook a ua' Ha) as (ua & Hua & Hf & Hg).
    rewrite Hf, Hg in Hx.
    destruct (Hcl a ua x Hua Hx) as [ux Hux].
    destruct (decide (uid = x)) as [->|Hne].
    + rewrite lookup_alter_eq, Hux. by eexists.
    + rewrite lookup_alter_ne by done. by eexists.
  - intros a ua' x Ha Hx.
    destruct (Hlook a ua' Ha) as (ua & Hua & Hf & _).
    rewrite Hf in Hx. by eapply Hcast.
Qed.

(** A toggle keeps both sides of every edge in agreement, at every spelling
    of the id, the cast of a cast id being that id. *)
Lemma follow_graph_inv isValidObjectId (cast : string → ObjectId) db u id :
  (∀ s, cast (cast s) = cast s) →
  graphInvariant cast (users db) →
  graphInvariant cast (users (users_follow isValidObjectId cast db u id).2).
Proof.
  intros Hidem Hinv.
  destruct (users_follow_cases isValidObjectId cast db u id)
    as [->|(uid & cur & tgt & -> & Hne & Hid & Hself & Hu & Ht)]; [done|].
  destruct (users_follow_run isValidObjectId cast db uid id cur tgt
              Hne Hid Hself Hu Ht) as (f & g & -> & Hun & Hfo). simpl.
  destruct Hinv as [Hsym Hcl Hcast].
  assert (Hf : ∀ x, x ∈ f ↔
            ((id ∉ following cur) ∧ x = cast id)
            ∨ (x ∈ following cur ∧ (id ∈ following cur → x ≠ cast id))).
  { intros x. destruct (decide (id ∈ following cur)) as [Hin|Hin].
    - destruct (Hun Hin) as [-> _].
      rewrite (Hcast uid cur id Hu Hin), list_elem_of_filter. tauto.
    - destruct (Hfo Hin) as [-> _].
      rewrite elem_of_app, list_elem_of_singleton. tauto. }
  assert (Hg : ∀ x, x ∈ g ↔
            ((id ∉ following cur) ∧ x = uid)
            ∨ (x ∈ followers tgt ∧ (id ∈ following cur → x ≠ uid))).
  { intros x. destruct (decide (id ∈ following cur)) as [Hin|Hin].
    - destruct (Hun Hin) as [_ ->].
      rewrite list_elem_of_filter. tauto.
    - destruct (Hfo Hin) as [_ ->].
      rewrite elem_of_app, list_elem_of_singleton. tauto. }
  split.
  - intros a c ua' uc' Ha Hc.
    apply follow_written_inv in Ha as (ua & Hua & ->).
    apply follow_written_inv in Hc as (uc & Huc & ->). simpl.
    pose proof (Hsym a c ua uc Hua Huc) as Hac.
    destruct (decide (a = uid)) as [->|Hau],
             (decide (c = cast id)) as [->|Hci].
    + assert (ua = cur) as -> by congruence.
      assert (uc = tgt) as -> by congruence.
      rewrite Hf, Hg. tauto.
    + assert (ua = cur) as -> by congruence.
      rewrite Hf. tauto.
    + assert (uc = tgt) as -> by congruence.
      rewrite Hg. tauto.
    + done.
  - intros a ua' x Ha Hx.
    apply follow_written_inv in Ha as (ua & Hua & ->). simpl in Hx.
    assert (is_Some (users db !! x)) as [ux Hux].
    { destruct Hx as [Hx|Hx].
      - destruct (decide (a = uid)) as [->|Hau].
        + assert (ua = cur) as -> by congruence.
          apply Hf in Hx as [[_ ->]|[Hx _]]; [by eexists|].
          by apply (Hcl uid cur x Hu (or_introl Hx)).
        + by apply (Hcl a ua x Hua (or_introl Hx)).
      - destruct (decide (a = cast id)) as [->|Hai].
        + assert (ua = tgt) as -> by congruence.
          apply Hg in Hx as [[_ ->]|[Hx _]]; [by eexists|].
          by apply (Hcl (cast id) tgt x Ht (or_intror Hx)).
        + by apply (Hcl a ua x Hua (or_intror Hx)). }
    rewrite (follow_written_Some _ uid (cast id) f g x ux Hux). by eexists.
  - intros a ua' x Ha Hx.
    apply follow_written_inv in Ha as (ua & Hua & ->). simpl in Hx.
    destruct (decide (a = uid)) as [->|Hau]; [|by eapply Hcast].
    assert (ua = cur) as -> by congruence.
    apply Hf in Hx as [[_ ->]|[Hx _]]; [done|]. by eapply Hcast.
Qed.

Section ReachableMore.

Variable isValidObjectId : string → bool.
Variable castObjectId : string → ObjectId.
Variable isEmail : string → bool.
Variable hashPassword : string → string.
Variable comparePassword : string → string → bool.
Variable generateToken : ObjectId → string.

Lemma handle_store_inv db r :
  storeInvariant db →
  storeInvariant
    (handle isValidObjectId castObjectId isEmail hashPassword
       comparePassword generateToken db r).2.
Proof.
  intros Hinv.
  pose proof (handle_separation isValidObjectId castObjectId isEmail
                hashPassword comparePassword generateToken db r) as Hsep.
  destruct r; simpl in *;
    eauto using register_store_inv, follow_store_inv, profile_store_inv,
      notes_create_store_inv, notes_update_store_inv, notes_delete_store_inv;
    by eapply storeInvariant_ext; [apply Hsep | apply Hsep | done].
Qed.

Lemma exec_store_inv history db :
  storeInvariant db →
  storeInvariant
    (exec isValidObjectId castObjectId isEmail hashPassword comparePassword
       generateToken history db).
Proof.
  unfold exec. revert db.
  induction history as [|r history IH]; intros db Hinv; simpl; [done|].
  apply IH. by apply handle_store_inv.
Qed.

Lemma handle_graph_inv db r :
  (∀ s, castObjectId (castObjectId s) = castObjectId s) →
  graphInvariant castObjectId (users db) →
  graphInvariant castObjectId
    (users (handle isValidObjectId castObjectId isEmail hashPassword
              comparePassword generateToken db r).2).
Proof.
  intros Hidem Hinv.
  pose proof (handle_separation isValidObjectId castObjectId isEmail
                hashPassword comparePassword generateToken db r) as Hsep.
  destruct r; simpl in *;
    eauto using register_graph_inv, follow_graph_inv, profile_graph_inv;
    try (by rewrite Hsep); by rewrite (proj1 Hsep).
Qed.

Lemma exec_graph_inv history db :
  (∀ s, castObjectId (castObjectId s) = castObjectId s) →
  graphInvariant castObjectId (users db) →
  graphInvariant castObjectId
    (users (exec isValidObjectId castObjectId isEmail hashPassword
              comparePassword generateToken history db)).
Proof.
  intros Hidem. unfold exec. revert db.
  induction history as [|r history IH]; intros db Hinv; simpl; [done|].
  apply IH. by apply handle_graph_inv.
Qed.

(** X18: the cast of a cast id being that id, the follow graph of every
    database the server reaches from the empty one records every edge on
    both sides: every id in a user's [following] is an id as the cast gives
    it, of a stored user whose [followers] hold that user, and every id in
    a user's [followers] is a stored user whose [following] hold that
    user. *)
Theorem reachable_follow_graph_symmetric history a ua :
  let db := exec isValidObjectId castObjectId isEmail hashPassword
              comparePassword generateToken history emptyDb in
  (∀ s, castObjectId (castObjectId s) = castObjectId s) →
  users db !! a = Some ua →
  (∀ b, b ∈ following ua →
     castObjectId b = b
     ∧ ∃ ub, users db !! b = Some ub ∧ a ∈ followers ub)
  ∧ (∀ b, b ∈ followers ua →
       ∃ ub, users db !! b = Some ub ∧ a ∈ following ub).
Proof.
  intros db Hidem Ha.
  assert (Hinv : graphInvariant castObjectId (users db))
    by (by apply exec_graph_inv, graphInvariant_empty).
  destruct Hinv as [Hsym Hcl Hcast].
  split.
  - intros b Hb. split; [by eapply Hcast|].
    destruct (Hcl a ua b Ha (or_introl Hb)) as [ub Hub].
    exists ub. split; [done|]. by apply (Hsym a b ua ub).
  - intros b Hb. destruct (Hcl a ua b Ha (or_intror Hb)) as [ub Hub].
    exists ub. split; [done|]. by apply (Hsym b a ub ua).
Qed.

(** X19: in every database the server reaches from the empty one, no two
    users share a username and no two users share an email. *)
Theorem reachable_identities_unique history a b ua ub :
  let db := exec isValidObjectId castObjectId isEmail hashPassword
              comparePassword generateToken history emptyDb in
  users db !! a = Some ua → users db !! b = Some ub →
  username ua = username ub ∨ email ua = email ub → a = b.
Proof.
  intros db.
  apply (inv_identities db), exec_store_inv, storeInvariant_empty.
Qed.

(** X20: every note stored in a database the server reaches from the empty
    one respects the schema: title and content are not empty, of at most 200
    and 5000 characters, and no tag has more than 50 characters. *)
Theorem reachable_notes_valid history id n :
  let db := exec isValidObjectId castObjectId isEmail hashPassword
              comparePassword generateToken history emptyDb in
  notes db !! id = Some n →
  title n ≠ "" ∧ String.length (title n) ≤ 200
  ∧ note_content n ≠ "" ∧ String.length (note_content n) ≤ 5000
  ∧ Forall (λ t, String.length t ≤ 50) (tags n).
Proof.
  intros db Hn.
  assert (Hv : noteValid n = true).
  { eapply (inv_notes db); [|done].
    apply exec_store_inv, storeInvariant_empty. }
  unfold noteValid in Hv.
  apply andb_true_iff in Hv as [Hv Htags].
  apply andb_true_iff in Hv as [Hv Hclen].
  apply andb_true_iff in Hv as [Hv Hcne].
  apply andb_true_iff in Hv as [Htne Htlen].
  apply negb_true_iff, String.eqb_neq in Htne, Hcne.
  apply Nat.leb_le in Htlen, Hclen.
  do 4 (split; [done|]).
  apply Forall_forall. intros t Ht. apply Nat.leb_le.
  rewrite forallb_forall in Htags. apply Htags.
  by apply list_elem_of_In.
Qed.

(** X21: in every database the server reaches from the empty one, every
    post's likes hold each user at most once. *)
Theorem reachable_likes_unique history id p :
  let db := exec isValidObjectId castObjectId isEmail hashPassword
              comparePassword generateToken history emptyDb in
  posts db !! id = Some p → NoDup (like_user <$> likes p).
Proof.
  intros db Hp. eapply (inv_likes db); [|done].
  apply exec_inv, dbInvariant_empty.
Qed.

(** X22: in every database the server reaches from the empty one, a user
    cannot take the username of another user: the profile update is
    answered 400 "Username already taken" and writes nothing. *)
Theorem profile_username_taken history uid k v b :
  let db := exec isValidObjectId castObjectId isEmail hashPassword
              comparePassword generateToken history emptyDb in
  users db !! k = Some v → k ≠ uid →
  prof_username b = Some (username v) → username v ≠ "" →
  users_profile db (Some uid) b
  = (respond 400 (JMessage "Username already taken"), db).
Proof.
  intros db Hk Hne Hb Hn.
  assert (Hst : storeInvariant db)
    by apply exec_store_inv, storeInvariant_empty.
  assert (Htr : Js.truthy (prof_username b) = true).
  { apply truthy_true. by exists (username v). }
  unfold users_profile. rewrite Htr, !andb_false_r, Hb. simpl.
  rewrite (findOne_unique (λ u, username u = username v) (users db) k v);
    [|done|done|].
  - apply String.eqb_neq in Hne. by rewrite Hne.
  - intros k' u' Hk' Hu'. apply (inv_identities db Hst k' k u' v); auto.
Qed.

End ReachableMore.

(** ** The further properties on the sample data *)

Lemma failed_request_changes_nothing_witness :
  (handle Sample.isValidObjectId Sample.castObjectId Sample.isEmail
     Sample.hashPassword Sample.comparePassword Sample.generateToken
     Sample.registered Sample.selfFollow).2 = Sample.registered.
Proof.
  apply (failed_request_changes_nothing Sample.isValidObjectId
           Sample.castObjectId Sample.isEmail Sample.hashPassword
           Sample.comparePassword Sample.generateToken
           Sample.registered Sample.selfFollow).
  apply Nat.leb_le. vm_compute. reflexivity.
Defined.

Lemma follow_self_guard_compares_spelling_witness :
  Sample.follow Sample.registered Sample.ann Sample.annUpper
  = (respond 200 (JFollow "Followed successfully" true 1),
     set_users Sample.registered
       (<[Sample.ann := Sample.annUser [Sample.ann] [Sample.ann]]>
          (users Sample.registered))).
Proof.
  destruct (follow_self_guard_compares_spelling Sample.isValidObjectId
              Sample.castObjectId Sample.registered Sample.ann
              Sample.annUpper) as (_ & _ & Hother).
  - discriminate.
  - reflexivity.
  - reflexivity.
  - apply (Hother (Sample.annUser [] [])).
    + vm_compute. reflexivity.
    + discriminate.
    + apply not_elem_of_nil.
Defined.

Lemma follow_response_reports_state_witness :
  ∃ (flag : bool) db' cur' tgt',
    Sample.follow Sample.annFollowsBob Sample.ann Sample.bobUpper
    = (respond 200
         (JFollow (if flag then "Followed successfully"
                   else "Unfollowed successfully")
            flag (length (followers tgt'))), db')
    ∧ users db' !! Sample.ann = Some cur'
    ∧ users db' !! Sample.bob = Some tgt'
    ∧ (flag = true ↔ Sample.bob ∈ following cur')
    ∧ (flag = true ↔ Sample.ann ∈ followers tgt').
Proof.
  apply (follow_response_reports_state Sample.isValidObjectId
           Sample.castObjectId Sample.annFollowsBob Sample.ann
           Sample.bobUpper (Sample.annUser [] [Sample.bob])
           (Sample.bobUser [Sample.ann] [])).
  - discriminate.
  - reflexivity.
  - discriminate.
  - vm_compute. reflexivity.
  - vm_compute. reflexivity.
  - intros x Hx. apply list_elem_of_singleton in Hx. rewrite Hx.
    reflexivity.
Defined.

Lemma follow_toggle_frame_witness :
  posts (Sample.follow Sample.registered Sample.ann Sample.bob).2
  = posts Sample.registered.
Proof.
  destruct (follow_toggle_frame Sample.isValidObjectId Sample.castObjectId
              Sample.registered Sample.ann Sample.bob (Sample.annUser [] [])
              (Sample.bobUser [] []))
    as (cur' & tgt' & _ & _ & Hposts & _).
  - discriminate.
  - reflexivity.
  - discriminate.
  - vm_compute. reflexivity.
  - vm_compute. reflexivity.
  - exact Hposts.
Defined.

Lemma follow_then_like_witness :
  ∃ m (flag : bool) n db',
    Sample.follow Sample.registered Sample.ann Sample.bob
    = (respond 200 (JFollow m flag n), db')
    ∧ status (posts_like Sample.isValidObjectId db' (Some Sample.ann)
                Sample.post1).1
      = if flag then 200 else 403.
Proof.
  apply (follow_then_like Sample.isValidObjectId Sample.castObjectId
           Sample.registered Sample.ann Sample.bob (Sample.annUser [] [])
           (Sample.bobUser [] []) Sample.post1 (Sample.bobsPost [] [])).
  - discriminate.
  - reflexivity.
  - discriminate.
  - vm_compute. reflexivity.
  - vm_compute. reflexivity.
  - intros x Hx. by apply elem_of_nil in Hx.
  - reflexivity.
  - vm_compute. reflexivity.
  - reflexivity.
Defined.

Lemma post_update_delete_author_only_witness :
  posts_update Sample.isValidObjectId Sample.registered (Some Sample.ann)
    Sample.post1 (Sample.contentBody "mine now")
  = (respond 403 (JMessage "Not authorized"), Sample.registered)
  ∧ posts_delete Sample.isValidObjectId Sample.registered (Some Sample.ann)
      Sample.post1
    = (respond 403 (JMessage "Not authorized"), Sample.registered).
Proof.
  destruct (post_update_delete_author_only Sample.isValidObjectId
              Sample.registered (Some Sample.ann) Sample.post1
              (Sample.bobsPost [] []) (Sample.contentBody "mine now")
              "mine now") as [Hother _].
  - reflexivity.
  - vm_compute. reflexivity.
  - reflexivity.
  - discriminate.
  - apply Hother. discriminate.
Defined.

Lemma post_delete_then_not_found_witness :
  posts_like Sample.isValidObjectId
    (posts_delete Sample.isValidObjectId Sample.registered (Some Sample.bob)
       Sample.post1).2 (Some Sample.ann) Sample.post1
  = (respond 404 (JMessage "Post not found"),
     (posts_delete Sample.isValidObjectId Sample.registered (Some Sample.bob)
        Sample.post1).2).
Proof.
  destruct (post_delete_then_not_found Sample.isValidObjectId
              Sample.registered Sample.post1 (Sample.bobsPost [] [])
              Sample.ann (Sample.contentBody "hi") "hi" Sample.comment1
              Sample.comment1)
    as (_ & _ & _ & _ & _ & _ & Hlike & _).
  - reflexivity.
  - vm_compute. reflexivity.
  - reflexivity.
  - reflexivity.
  - discriminate.
  - exact Hlike.
Defined.

Lemma comment_appends_witness :
  ∃ post',
    posts_comment Sample.isValidObjectId Sample.registered (Some Sample.bob)
      Sample.comment1 Sample.post1 (Sample.contentBody "mine")
    = (respond 200 (JPost Sample.post1 post'),
       set_posts Sample.registered
         (<[Sample.post1 := post']> (posts Sample.registered)))
    ∧ comments post' = [Sample.bobsComment].
Proof.
  destruct (comment_appends Sample.isValidObjectId Sample.registered
              Sample.bob Sample.comment1 Sample.post1 (Sample.bobsPost [] [])
              (Sample.bobUser [] []) (Sample.bobUser [] [])
              (Sample.contentBody "mine") "mine")
    as (post' & Hrun & Hcs & _).
  - reflexivity.
  - vm_compute. reflexivity.
  - vm_compute. reflexivity.
  - vm_compute. reflexivity.
  - reflexivity.
  - reflexivity.
  - discriminate.
  - exists post'. split; [exact Hrun|exact Hcs].
Defined.

Lemma comment_then_delete_restores_witness :
  ∃ post1 db1,
    posts_comment Sample.isValidObjectId Sample.registered (Some Sample.bob)
      Sample.comment1 Sample.post1 (Sample.contentBody "mine")
    = (respond 200 (JPost Sample.post1 post1), db1)
    ∧ posts_deleteComment Sample.isValidObjectId db1 (Some Sample.bob)
        Sample.post1 Sample.comment1
      = (respond 200 (JMessage "Comment deleted"), Sample.registered).
Proof.
  apply (comment_then_delete_restores Sample.isValidObjectId
           Sample.registered Sample.bob Sample.comment1 Sample.post1
           (Sample.bobsPost [] []) (Sample.bobUser [] [])
           (Sample.bobUser [] []) (Sample.contentBody "mine") "mine").
  - reflexivity.
  - reflexivity.
  - vm_compute. reflexivity.
  - vm_compute. reflexivity.
  - vm_compute. reflexivity.
  - reflexivity.
  - reflexivity.
  - discriminate.
  - simpl. apply not_elem_of_nil.
Defined.

Lemma post_author_never_changes_witness :
  author (set_content (Sample.bobsPost [] []) "edited") = Sample.bob.
Proof.
  apply (post_author_never_changes Sample.isValidObjectId
           Sample.castObjectId Sample.isEmail Sample.hashPassword
           Sample.comparePassword Sample.generateToken Sample.registered Sample.editPost Sample.post1
           (Sample.bobsPost [] [])
           (set_content (Sample.bobsPost [] []) "edited")).
  - vm_compute. reflexivity.
  - vm_compute. reflexivity.
Defined.

Lemma note_owner_never_changes_witness :
  note_user (assignNote Sample.annsNote Sample.pinOnly) = Sample.ann.
Proof.
  apply (note_owner_never_changes Sample.isValidObjectId
           Sample.castObjectId Sample.isEmail Sample.hashPassword
           Sample.comparePassword Sample.generateToken Sample.annNote Sample.pinNote Sample.note1 Sample.annsNote
           (assignNote Sample.annsNote Sample.pinOnly)).
  - vm_compute. reflexivity.
  - vm_compute. reflexivity.
Defined.

Lemma register_duplicate_rejected_witness :
  auth_register Sample.isEmail Sample.hashPassword Sample.generateToken
    Sample.registered Sample.cara
    (Sample.registerBody "cara" "ann@example.com" "secret3")
  = (respond 400 (JMessage "User already exists"), Sample.registered).
Proof.
  apply (register_duplicate_rejected Sample.isEmail Sample.hashPassword
           Sample.generateToken Sample.registered Sample.cara
           (Sample.registerBody "cara" "ann@example.com" "secret3")
           "cara" "ann@example.com" "secret3" Sample.ann
           (Sample.annUser [] [])).
  - reflexivity.
  - simpl. lia.
  - reflexivity.
  - reflexivity.
  - reflexivity.
  - simpl. lia.
  - vm_compute. reflexivity.
  - left. reflexivity.
Defined.

Lemma register_then_login_witness :
  auth_login Sample.isEmail Sample.comparePassword Sample.generateToken
    (set_users emptyDb
       (<[Sample.ann := Sample.annUser [] []]> (users emptyDb)))
    {| login_email := Some "ann@example.com";
       login_password := Some "secret1" |}
  = respond 200
      (JAuth (Sample.generateToken Sample.ann)
         (userJson Sample.ann (Sample.annUser [] []))).
Proof.
  destruct (register_then_login Sample.isEmail Sample.hashPassword
              Sample.comparePassword Sample.generateToken emptyDb Sample.ann
              (Sample.registerBody "ann" "ann@example.com" "secret1")
              "ann" "ann@example.com" "secret1")
    as (_ & Hlogin & _).
  - reflexivity.
  - simpl. lia.
  - reflexivity.
  - reflexivity.
  - reflexivity.
  - simpl. lia.
  - intros k u Hk. simpl in Hk. rewrite lookup_empty in Hk. discriminate Hk.
  - reflexivity.
  - reflexivity.
  - exact Hlogin.
Defined.


Lemma note_create_defaults_witness :
  notes_create Sample.registered (Some Sample.ann) Sample.note1 Sample.eggs
  = (respond 201
       (JNote Sample.note1
          {| note_user := Sample.ann; title := "shop"; note_content := "eggs";
             tags := []; isPinned := false |}),
     set_notes Sample.registered
       (<[Sample.note1 :=
            {| note_user := Sample.ann; title := "shop";
               note_content := "eggs"; tags := []; isPinned := false |}]>
          (notes Sample.registered))).
Proof.
  destruct (note_create_defaults Sample.registered Sample.ann Sample.note1
              Sample.eggs "shop" "eggs") as [Hok _].
  - reflexivity.
  - discriminate.
  - reflexivity.
  - discriminate.
  - apply Hok; [reflexivity | vm_compute; reflexivity].
Defined.

Lemma note_update_delete_owner_only_witness :
  notes_update Sample.isValidObjectId Sample.annNote (Some Sample.bob)
    Sample.note1 Sample.pinOnly
  = (respond 403 (JMessage "Not authorized"), Sample.annNote)
  ∧ notes_delete Sample.isValidObjectId Sample.annNote (Some Sample.bob)
      Sample.note1
    = (respond 403 (JMessage "Not authorized"), Sample.annNote).
Proof.
  destruct (note_update_delete_owner_only Sample.isValidObjectId
              Sample.annNote Sample.bob Sample.note1 Sample.annsNote
              Sample.pinOnly "list" "eggs") as [Hother _].
  - reflexivity.
  - vm_compute. reflexivity.
  - reflexivity.
  - discriminate.
  - reflexivity.
  - discriminate.
  - apply Hother. discriminate.
Defined.

Lemma lowerHex_idempotent a :
  Sample.lowerHex (Sample.lowerHex a) = Sample.lowerHex a.
Proof. by destruct a as [[] [] [] [] [] [] [] []]. Qed.

Lemma castObjectId_idempotent s :
  Sample.castObjectId (Sample.castObjectId s) = Sample.castObjectId s.
Proof.
  induction s as [|a s IH]; [done|].
  simpl. by rewrite lowerHex_idempotent, IH.
Qed.

Lemma reachable_follow_graph_symmetric_witness :
  Sample.castObjectId Sample.bob = Sample.bob
  ∧ ∃ ub, users Sample.annCommented !! Sample.bob = Some ub
          ∧ Sample.ann ∈ followers ub.
Proof.
  destruct (reachable_follow_graph_symmetric Sample.isValidObjectId
              Sample.castObjectId Sample.isEmail Sample.hashPassword
              Sample.comparePassword Sample.generateToken
              Sample.annCommentedHistory Sample.ann
              (Sample.annUser [] [Sample.bob]))
    as (Hfollowing & _).
  - exact castObjectId_idempotent.
  - vm_compute. reflexivity.
  - apply (Hfollowing Sample.bob). apply list_elem_of_singleton. reflexivity.
Defined.

Lemma reachable_identities_unique_witness : Sample.ann = Sample.ann.
Proof.
  apply (reachable_identities_unique Sample.isValidObjectId
           Sample.castObjectId Sample.isEmail Sample.hashPassword
           Sample.comparePassword Sample.generateToken
           Sample.setup Sample.ann Sample.ann (Sample.annUser [] [])
           (Sample.annUser [] [])).
  - vm_compute. reflexivity.
  - vm_compute. reflexivity.
  - left. reflexivity.
Defined.

Lemma reachable_notes_valid_witness :
  String.length (title Sample.annsNote) ≤ 200.
Proof.
  destruct (reachable_notes_valid Sample.isValidObjectId
           Sample.castObjectId Sample.isEmail Sample.hashPassword
           Sample.comparePassword Sample.generateToken
              Sample.annNoteHistory Sample.note1 Sample.annsNote)
    as (_ & Hlen & _).
  - vm_compute. reflexivity.
  - exact Hlen.
Defined.

Lemma reachable_likes_unique_witness :
  NoDup (like_user <$> [ {| like_user := Sample.ann |} ]).
Proof.
  apply (reachable_likes_unique Sample.isValidObjectId
           Sample.castObjectId Sample.isEmail Sample.hashPassword
           Sample.comparePassword Sample.generateToken
           Sample.annLikedHistory Sample.post1
           (Sample.bobsPost [ {| like_user := Sample.ann |} ]
              [Sample.annsComment])).
  vm_compute. reflexivity.
Defined.

Lemma profile_username_taken_witness :
  users_profile Sample.registered (Some Sample.ann) Sample.renameToBob
  = (respond 400 (JMessage "Username already taken"), Sample.registered).
Proof.
  apply (profile_username_taken Sample.isValidObjectId
           Sample.castObjectId Sample.isEmail Sample.hashPassword
           Sample.comparePassword Sample.generateToken
           Sample.setup Sample.ann Sample.bob (Sample.bobUser [] [])
           Sample.renameToBob).
  - vm_compute. reflexivity.
  - discriminate.
  - reflexivity.
  - discriminate.
Defined.
